(** * auth-app: the account state machine of the Express/Prisma backend

    A shallow embedding of the route handlers of
    [backend/src/routes/auth.ts], [backend/src/routes/user.ts] and of the
    Google strategy's verify callback ([backend/src/auth/passport.ts]),
    over a model of the [User] table of the initial migration.

    Conventions.
    - Request body fields are JavaScript scalars ([jsval]); strings are
      sequences of 8-bit code units, so [toLowerCase], [length] and the
      regular expression classes are the ASCII ones.
    - An exception thrown inside a handler's [try] block is [Throw]; every
      handler catches it and answers 500 without having touched the table.
    - bcrypt, jsonwebtoken and the string-to-number conversion are the
      fields of the [Runtime] class: the theorems hold for every runtime. *)

From Stdlib Require Import ZArith QArith List String Ascii Bool Arith Lia.
From Stdlib Require Import DecimalString DecimalNat.
From Stdlib Require Import Permutation Sorted.
Import ListNotations.
Open Scope string_scope.

(* ===================================================================== *)
(** ** JavaScript values and the builtins the handlers use *)
(* ===================================================================== *)

Module Js.

(** A JavaScript number: a double is a rational, an infinity or NaN. *)
Inductive jsnum : Type :=
| NaN
| PosInf
| NegInf
| Fin (q : Q).

(** The scalar values a parsed JSON or multipart body field can hold. *)
Inductive jsval : Type :=
| JUndefined
| JNull
| JBool (b : bool)
| JNum (n : jsnum)
| JStr (s : string).

Definition num_truthy (n : jsnum) : bool :=
  match n with
  | NaN => false
  | PosInf | NegInf => true
  | Fin q => negb (Qeq_bool q 0)
  end.

(** ToBoolean: what [if (v)], [!v] and [a && b] test. *)
Definition truthy (v : jsval) : bool :=
  match v with
  | JUndefined | JNull => false
  | JBool b => b
  | JNum n => num_truthy n
  | JStr s => negb (s =? "")
  end.

(** Truthiness of a nullable string column ([string | null]). *)
Definition truthy_str (o : option string) : bool :=
  match o with
  | None => false
  | Some s => negb (s =? "")
  end.

(** [a <= b] on numbers; every comparison with NaN is false. *)
Definition num_leb (a b : jsnum) : bool :=
  match a, b with
  | NaN, _ | _, NaN => false
  | NegInf, _ => true
  | _, PosInf => true
  | Fin x, Fin y => Qle_bool x y
  | _, _ => false
  end.

Definition of_Z (z : Z) : jsnum := Fin (inject_Z z).

(** The integer a number denotes, if it is one ([Number.isInteger]). *)
Definition as_integer (n : jsnum) : option Z :=
  match n with
  | Fin q =>
      let r := Qred q in
      if (Qden r =? 1)%positive then Some (Qnum r) else None
  | _ => None
  end.

(** [String.prototype.toLowerCase] on ASCII code units. *)
Definition lower_ascii (c : ascii) : ascii :=
  let n := nat_of_ascii c in
  if (65 <=? n)%nat && (n <=? 90)%nat then ascii_of_nat (n + 32) else c.

Fixpoint toLowerCase (s : string) : string :=
  match s with
  | EmptyString => EmptyString
  | String c r => String (lower_ascii c) (toLowerCase r)
  end.

(** [Array.prototype.includes] on an array of strings. *)
Definition includes (xs : list string) (s : string) : bool :=
  existsb (String.eqb s) xs.

(** [String.prototype.split] with a one-character separator. *)
Fixpoint split (sep : ascii) (s : string) : list string :=
  match s with
  | EmptyString => [""]
  | String c r =>
      if Ascii.eqb c sep then "" :: split sep r
      else match split sep r with
           | h :: t => String c h :: t
           | [] => [String c ""]
           end
  end.

(** *** Regular expressions, matched by derivatives *)

Inductive regex : Type :=
| Empty
| Eps
| Class (p : ascii -> bool)
| Seq (r1 r2 : regex)
| Alt (r1 r2 : regex)
| Star (r : regex).

Definition Plus (r : regex) : regex := Seq r (Star r).
Definition Chr (c : ascii) : regex := Class (Ascii.eqb c).

Fixpoint nullable (r : regex) : bool :=
  match r with
  | Empty => false
  | Eps => true
  | Class _ => false
  | Seq r1 r2 => nullable r1 && nullable r2
  | Alt r1 r2 => nullable r1 || nullable r2
  | Star _ => true
  end.

Fixpoint deriv (c : ascii) (r : regex) : regex :=
  match r with
  | Empty | Eps => Empty
  | Class p => if p c then Eps else Empty
  | Seq r1 r2 =>
      if nullable r1 then Alt (Seq (deriv c r1) r2) (deriv c r2)
      else Seq (deriv c r1) r2
  | Alt r1 r2 => Alt (deriv c r1) (deriv c r2)
  | Star r1 => Seq (deriv c r1) (Star r1)
  end.

(** [/^r$/.test(s)] *)
Fixpoint test (r : regex) (s : string) : bool :=
  match s with
  | EmptyString => nullable r
  | String c s' => test (deriv c r) s'
  end.

(** The class [\s] on ASCII: tab, line feed, vertical tab, form feed,
    carriage return and space. *)
Definition is_space (c : ascii) : bool :=
  let n := nat_of_ascii c in
  ((9 <=? n)%nat && (n <=? 13)%nat) || (n =? 32)%nat.

End Js.

(** The external primitives: [Number] on a string, bcryptjs and
    jsonwebtoken with the server's secret. *)
Class Runtime : Type := {
  StringToNumber : string -> Js.jsnum;
  bcrypt_hash : string -> string;
  bcrypt_compare : string -> string -> bool;
  jwt_sign : nat -> string;
  jwt_verify : string -> option nat
}.

(** [Number(v)] *)
Definition Number `{Runtime} (v : Js.jsval) : Js.jsnum :=
  match v with
  | Js.JUndefined => Js.NaN
  | Js.JNull => Js.of_Z 0
  | Js.JBool b => Js.of_Z (if b then 1 else 0)
  | Js.JNum n => n
  | Js.JStr s => StringToNumber s
  end.

(** [v.length] for a truthy scalar: only a string has one; on a number or
    a boolean the property is [undefined]. *)
Definition length_of (v : Js.jsval) : option nat :=
  match v with
  | Js.JStr s => Some (String.length s)
  | _ => None
  end.

(** [v.length < n]: [undefined < n] is false. *)
Definition length_lt (v : Js.jsval) (n : nat) : bool :=
  match length_of v with
  | Some l => (l <? n)%nat
  | None => false
  end.

(* ===================================================================== *)
(** ** Exceptions *)
(* ===================================================================== *)

(** The outcome of code that may throw. *)
Inductive exn (A : Type) : Type :=
| Ret (a : A)
| Throw.

Arguments Ret {A} a.
Arguments Throw {A}.

Definition bind {A B : Type} (m : exn A) (k : A -> exn B) : exn B :=
  match m with
  | Ret a => k a
  | Throw => Throw
  end.

Notation "x <- m ;; k" := (bind m (fun x => k))
  (at level 61, m at next level, right associativity).

(** [try { body } catch { handler }] *)
Definition try_catch {A : Type} (body : exn A) (handler : A) : A :=
  match body with
  | Ret a => a
  | Throw => handler
  end.

(* ===================================================================== *)
(** ** The User table (prisma/migrations/20250730082712_init) *)
(* ===================================================================== *)

Module Prisma.

(** A row. [age] and [gender] are nullable and [isProfileComplete] is a
    column, as every query of the route handlers has them. *)
Record User : Type := mkUser {
  id : nat;
  name : string;
  email : string;
  password : option string;
  age : option Z;
  gender : option string;
  profilePicture : option string;
  createdAt : Z;
  updatedAt : Z;
  provider : string;
  googleId : option string;
  isProfileComplete : bool
}.

(** The table, in insertion order. *)
Definition DB : Type := list User.

(** [data] of [prisma.user.create]; [id], [createdAt] and [updatedAt] are
    filled in by the store. *)
Record CreateData : Type := mkCreate {
  c_name : string;
  c_email : string;
  c_password : option string;
  c_age : option Z;
  c_gender : option string;
  c_profilePicture : option string;
  c_provider : string;
  c_googleId : option string;
  c_isProfileComplete : bool
}.

(** [data] of [prisma.user.update]: [None] is a key that is absent or
    [undefined] (the column is left alone); for the picture, [Some None]
    writes [null]. *)
Record UpdateData : Type := mkUpdate {
  set_name : option string;
  set_password : option string;
  set_age : option Z;
  set_gender : option string;
  set_profilePicture : option (option string);
  set_provider : option string;
  set_googleId : option string;
  set_isProfileComplete : option bool
}.

Definition findUnique_id (db : DB) (i : nat) : option User :=
  find (fun u => (id u =? i)%nat) db.

Definition findUnique_email (db : DB) (e : string) : option User :=
  find (fun u => (email u =? e)%string) db.

(** The store's id generator yields an id no row has. *)
Definition fresh_id (db : DB) : nat := S (list_max (map id db)).

Definition opt_string_eqb (a b : option string) : bool :=
  match a, b with
  | Some x, Some y => (x =? y)%string
  | _, _ => false
  end.

(** The unique index [User_email_key]. *)
Definition email_taken (db : DB) (e : string) : bool :=
  existsb (fun u => (email u =? e)%string) db.

(** The unique index [User_googleId_key]: some row other than [self]
    holds [g]. NULLs never collide. *)
Definition googleId_taken (db : DB) (self : option nat) (g : option string) : bool :=
  existsb (fun u =>
             opt_string_eqb (googleId u) g
             && match self with
                | Some i => negb (id u =? i)%nat
                | None => true
                end) db.

(** [prisma.user.create]: throws on a unique-constraint violation. *)
Definition create (now : Z) (db : DB) (d : CreateData) : exn (User * DB) :=
  if email_taken db (c_email d) || googleId_taken db None (c_googleId d)
  then Throw
  else
    let u := mkUser (fresh_id db) (c_name d) (c_email d) (c_password d)
                    (c_age d) (c_gender d) (c_profilePicture d)
                    now now (c_provider d) (c_googleId d)
                    (c_isProfileComplete d) in
    Ret (u, (db ++ [u])%list).

Definition override {A : Type} (new : option A) (old : A) : A :=
  match new with
  | Some a => a
  | None => old
  end.

(** The row after an update; [updatedAt] is refreshed by the store. *)
Definition apply_update (now : Z) (d : UpdateData) (u : User) : User :=
  mkUser (id u)
         (override (set_name d) (name u))
         (email u)
         (match set_password d with Some h => Some h | None => password u end)
         (match set_age d with Some a => Some a | None => age u end)
         (match set_gender d with Some g => Some g | None => gender u end)
         (override (set_profilePicture d) (profilePicture u))
         (createdAt u)
         now
         (override (set_provider d) (provider u))
         (match set_googleId d with Some g => Some g | None => googleId u end)
         (override (set_isProfileComplete d) (isProfileComplete u)).

Fixpoint replace_row (i : nat) (u' : User) (db : DB) : DB :=
  match db with
  | [] => []
  | u :: rest =>
      if (id u =? i)%nat then u' :: rest else u :: replace_row i u' rest
  end.

(** [prisma.user.update({ where: { id }, data })]: throws when no row has
    the id, or on a unique-constraint violation. *)
Definition update (now : Z) (db : DB) (i : nat) (d : UpdateData) : exn (User * DB) :=
  match findUnique_id db i with
  | None => Throw
  | Some u =>
      if match set_googleId d with
         | Some g => googleId_taken db (Some i) (Some g)
         | None => false
         end
      then Throw
      else
        let u' := apply_update now d u in
        Ret (u', replace_row i u' db)
  end.

(** *** Query projections ([select]) *)

Inductive Field : Type :=
| FId | FName | FEmail | FPassword | FAge | FGender | FProfilePicture
| FCreatedAt | FUpdatedAt | FProvider | FGoogleId | FIsProfileComplete.

Definition field_eqb (a b : Field) : bool :=
  match a, b with
  | FId, FId | FName, FName | FEmail, FEmail | FPassword, FPassword
  | FAge, FAge | FGender, FGender | FProfilePicture, FProfilePicture
  | FCreatedAt, FCreatedAt | FUpdatedAt, FUpdatedAt | FProvider, FProvider
  | FGoogleId, FGoogleId | FIsProfileComplete, FIsProfileComplete => true
  | _, _ => false
  end.

Definition all_fields : list Field :=
  [FId; FName; FEmail; FPassword; FAge; FGender; FProfilePicture;
   FCreatedAt; FUpdatedAt; FProvider; FGoogleId; FIsProfileComplete].

(** The object a query returns: a key is present ([Some]) iff selected. *)
Record View : Type := mkView {
  v_id : option nat;
  v_name : option string;
  v_email : option string;
  v_password : option (option string);
  v_age : option (option Z);
  v_gender : option (option string);
  v_profilePicture : option (option string);
  v_createdAt : option Z;
  v_updatedAt : option Z;
  v_provider : option string;
  v_googleId : option (option string);
  v_isProfileComplete : option bool
}.

Definition pick {A : Type} (sel : list Field) (f : Field) (a : A) : option A :=
  if existsb (field_eqb f) sel then Some a else None.

Definition select (sel : list Field) (u : User) : View :=
  mkView (pick sel FId (id u)) (pick sel FName (name u))
         (pick sel FEmail (email u)) (pick sel FPassword (password u))
         (pick sel FAge (age u)) (pick sel FGender (gender u))
         (pick sel FProfilePicture (profilePicture u))
         (pick sel FCreatedAt (createdAt u)) (pick sel FUpdatedAt (updatedAt u))
         (pick sel FProvider (provider u)) (pick sel FGoogleId (googleId u))
         (pick sel FIsProfileComplete (isProfileComplete u)).

(** Argument validation of the client: a [String] column takes a string,
    an [Int] column an integer. *)
Definition String_arg (v : Js.jsval) : exn string :=
  match v with
  | Js.JStr s => Ret s
  | _ => Throw
  end.

Definition Int_arg (n : Js.jsnum) : exn Z :=
  match Js.as_integer n with
  | Some z =>
      if ((- 2147483648 <=? z) && (z <=? 2147483647))%Z then Ret z else Throw
  | None => Throw
  end.

(** [findMany({ orderBy: { createdAt: "desc" } })]: the rows, newest
    first. The store leaves the order of rows of equal [createdAt] open;
    here an earlier-inserted row comes first among equals. *)
Fixpoint insert_desc (u : User) (rows : list User) : list User :=
  match rows with
  | [] => [u]
  | v :: rest =>
      if (createdAt v <=? createdAt u)%Z then u :: rows
      else v :: insert_desc u rest
  end.

Definition orderBy_createdAt_desc (db : DB) : list User :=
  fold_right insert_desc [] db.

(** [count({ where: { createdAt: { gte: since } } })] *)
Definition count_since (db : DB) (since : Z) : nat :=
  List.length (filter (fun u => (since <=? createdAt u)%Z) db).

Definition opt_eqb (a b : option string) : bool :=
  match a, b with
  | Some x, Some y => (x =? y)%string
  | None, None => true
  | _, _ => false
  end.

(** The distinct values of the [gender] column, each once. *)
Fixpoint gender_keys (db : DB) : list (option string) :=
  match db with
  | [] => []
  | u :: rest =>
      if existsb (opt_eqb (gender u)) (gender_keys rest)
      then gender_keys rest
      else gender u :: gender_keys rest
  end.

(** [groupBy({ by: ["gender"], _count: { gender: true } })]: one group per
    distinct value, NULL included; [_count.gender] counts the values of
    the column in the group that are not NULL. The order of the groups
    is the store's. *)
Definition groupBy_gender (db : DB) : list (option string * nat) :=
  map (fun g =>
         (g, match g with
             | Some _ =>
                 List.length (filter (fun u => opt_eqb (gender u) g) db)
             | None => 0%nat
             end))
      (gender_keys db).

End Prisma.

(* ===================================================================== *)
(** ** utils/cloudinary.ts *)
(* ===================================================================== *)

Module Cloudinary.

(** What the upload callback receives: an error, or a result that may
    lack [secure_url]. An uploaded file is modelled by this answer. *)
Inductive upload_answer : Type :=
| UploadError
| UploadResult (secure_url : option string).

(** [uploadImage]: rejects on error, else resolves [result?.secure_url || ""]. *)
Definition uploadImage (file : upload_answer) : exn string :=
  match file with
  | UploadError => Throw
  | UploadResult r => Ret (if Js.truthy_str r then match r with
                                                    | Some s => s
                                                    | None => ""
                                                    end
                           else "")
  end.

End Cloudinary.

(* ===================================================================== *)
(** ** HTTP responses *)
(* ===================================================================== *)

Inductive Body : Type :=
| ErrorBody (error : string)
| UserBody (message : option string) (user : Prisma.View) (token : option string)
| MessageBody (message : string).

Record Response : Type := mkResponse {
  status : nat;
  body : Body
}.

(** [res.status(code).json({ error: msg })] *)
Definition reject (code : nat) (msg : string) : Response :=
  mkResponse code (ErrorBody msg).

Definition internal_error : Response := reject 500 "Internal server error".

(** Method calls that throw a TypeError or an argument error on a value
    that is not a string. *)
Definition toLowerCase_of (v : Js.jsval) : exn string :=
  match v with
  | Js.JStr s => Ret (Js.toLowerCase s)
  | _ => Throw
  end.

Definition hash_of `{Runtime} (v : Js.jsval) : exn string :=
  match v with
  | Js.JStr s => Ret (bcrypt_hash s)
  | _ => Throw
  end.

Definition compare_of `{Runtime} (v : Js.jsval) (h : string) : exn bool :=
  match v with
  | Js.JStr s => Ret (bcrypt_compare s h)
  | _ => Throw
  end.

(** [a && b] where evaluating [b] may throw. *)
Definition and_then (a : bool) (b : exn bool) : exn bool :=
  if a then b else Ret false.

(** The validation helpers, identical in auth.ts and user.ts. *)

Definition isValidAge (age : Js.jsnum) : bool :=
  Js.num_leb (Js.of_Z 13) age && Js.num_leb age (Js.of_Z 120).

Definition isValidGender (gender : Js.jsval) : exn bool :=
  g <- toLowerCase_of gender ;;
  Ret (Js.includes ["male"; "female"; "other"; "prefer-not-to-say"] g).

(* ===================================================================== *)
(** ** routes/auth.ts *)
(* ===================================================================== *)

Module Auth.

Import Js.

Definition generateToken `{Runtime} (userId : nat) : string := jwt_sign userId.

(** [[^\s@]] *)
Definition not_space_at : regex :=
  Class (fun c => negb (is_space c || Ascii.eqb c "@")).

(** [/^[^\s@]+@[^\s@]+\.[^\s@]+$/] *)
Definition emailRegex : regex :=
  Seq (Plus not_space_at)
      (Seq (Chr "@")
           (Seq (Plus not_space_at) (Seq (Chr ".") (Plus not_space_at)))).

(** [emailRegex.test(email)]. A truthy value that is not a string is
    converted to text first; the text of a number or of [true] has no
    ["@"], so the test fails. *)
Definition isValidEmail (email : jsval) : bool :=
  match email with
  | JStr s => test emailRegex s
  | _ => false
  end.

Record SignupRequest : Type := mkSignup {
  su_name : jsval;
  su_email : jsval;
  su_password : jsval;
  su_age : jsval;
  su_gender : jsval;
  su_file : option Cloudinary.upload_answer
}.

Definition signup_select : list Prisma.Field :=
  [Prisma.FId; Prisma.FName; Prisma.FEmail; Prisma.FAge; Prisma.FGender;
   Prisma.FProfilePicture; Prisma.FProvider; Prisma.FCreatedAt].

(** The [try] block of POST /signup, from the hashing on. *)
Definition signup_create `{Runtime} (now : Z) (db : Prisma.DB)
  (req : SignupRequest) (lower : string) : exn (Response * Prisma.DB) :=
  hashedPassword <- hash_of (su_password req) ;;
  match match su_file req with
        | Some file =>
            match Cloudinary.uploadImage file with
            | Ret url => Ret (Some url)
            | Throw => Throw
            end
        | None => Ret None
        end with
  | Throw => Ret (reject 400 "Failed to upload image", db)
  | Ret profilePictureUrl =>
      name <- Prisma.String_arg (su_name req) ;;
      age <- (if truthy (su_age req)
              then z <- Prisma.Int_arg (Number (su_age req)) ;; Ret (Some z)
              else Ret None) ;;
      gender <- (if truthy (su_gender req)
                 then g <- toLowerCase_of (su_gender req) ;; Ret (Some g)
                 else Ret None) ;;
      created <- Prisma.create now db
                   (Prisma.mkCreate name lower (Some hashedPassword) age gender
                      profilePictureUrl "credentials" None
                      (truthy (su_age req) && truthy (su_gender req))) ;;
      let (user, db') := created in
      Ret (mkResponse 201
             (UserBody (Some "User created successfully")
                (Prisma.select signup_select user)
                (Some (generateToken (Prisma.id user)))),
           db')
  end.

Definition signup_try `{Runtime} (now : Z) (db : Prisma.DB)
  (req : SignupRequest) : exn (Response * Prisma.DB) :=
  if negb (truthy (su_name req)) || negb (truthy (su_email req))
     || negb (truthy (su_password req))
  then Ret (reject 400 "Name, email, and password are required", db)
  else if negb (isValidEmail (su_email req))
  then Ret (reject 400 "Invalid email format", db)
  else if length_lt (su_password req) 6
  then Ret (reject 400 "Password must be at least 6 characters long", db)
  else if truthy (su_age req) && negb (isValidAge (Number (su_age req)))
  then Ret (reject 400 "Age must be between 13 and 120", db)
  else
    badGender <- and_then (truthy (su_gender req))
                   (ok <- isValidGender (su_gender req) ;; Ret (negb ok)) ;;
    if badGender
    then Ret (reject 400 "Invalid gender selection", db)
    else
      lower <- toLowerCase_of (su_email req) ;;
      match Prisma.findUnique_email db lower with
      | Some existingUser =>
          Ret (reject 400 "User with this email already exists", db)
      | None => signup_create now db req lower
      end.

(** POST /signup *)
Definition signup `{Runtime} (now : Z) (db : Prisma.DB)
  (req : SignupRequest) : Response * Prisma.DB :=
  try_catch (signup_try now db req) (internal_error, db).

Record LoginRequest : Type := mkLogin {
  li_email : jsval;
  li_password : jsval
}.

(** [const { password: _, ...userWithoutPassword } = user] *)
Definition userWithoutPassword : list Prisma.Field :=
  filter (fun f => negb (Prisma.field_eqb f Prisma.FPassword)) Prisma.all_fields.

Definition login_try `{Runtime} (db : Prisma.DB) (req : LoginRequest)
  : exn Response :=
  if negb (truthy (li_email req)) || negb (truthy (li_password req))
  then Ret (reject 400 "Email and password are required")
  else if negb (isValidEmail (li_email req))
  then Ret (reject 400 "Invalid email format")
  else
    lower <- toLowerCase_of (li_email req) ;;
    match Prisma.findUnique_email db lower with
    | None => Ret (reject 401 "Invalid credentials")
    | Some user =>
        match Prisma.password user with
        | None => Ret (reject 401 "Please login with Google")
        | Some hash =>
            if (hash =? "")%string
            then Ret (reject 401 "Please login with Google")
            else
              isPasswordValid <- compare_of (li_password req) hash ;;
              if negb isPasswordValid
              then Ret (reject 401 "Invalid credentials")
              else Ret (mkResponse 200
                          (UserBody (Some "Login successful")
                             (Prisma.select userWithoutPassword user)
                             (Some (generateToken (Prisma.id user)))))
        end
    end.

(** POST /login; it never writes. *)
Definition login `{Runtime} (db : Prisma.DB) (req : LoginRequest) : Response :=
  try_catch (login_try db req) internal_error.

Record CompleteProfileRequest : Type := mkComplete {
  cp_authorization : option string;
  cp_age : jsval;
  cp_gender : jsval;
  cp_password : jsval
}.

(** [authHeader && authHeader.split(" ")[1]]; [None] is [undefined]. *)
Definition bearer (authHeader : option string) : option string :=
  match authHeader with
  | None => None
  | Some h => if (h =? "")%string then Some h else nth_error (split " " h) 1
  end.

Definition complete_select : list Prisma.Field := signup_select.

Definition completeProfile_try `{Runtime} (now : Z) (db : Prisma.DB)
  (req : CompleteProfileRequest) : exn (Response * Prisma.DB) :=
  match bearer (cp_authorization req) with
  | None => Ret (reject 401 "No token provided", db)
  | Some token =>
      if (token =? "")%string
      then Ret (reject 401 "No token provided", db)
      else
        match jwt_verify token with
        | None => Throw
        | Some userId =>
            if negb (truthy (cp_age req)) || negb (truthy (cp_gender req))
            then Ret (reject 400 "Age and gender are required", db)
            else if negb (isValidAge (Number (cp_age req)))
            then Ret (reject 400 "Age must be between 13 and 120", db)
            else
              genderOk <- isValidGender (cp_gender req) ;;
              if negb genderOk
              then Ret (reject 400 "Invalid gender selection", db)
              else
                match Prisma.findUnique_id db userId with
                | None => Ret (reject 404 "User not found", db)
                | Some currentUser =>
                    gender <- toLowerCase_of (cp_gender req) ;;
                    let finish (pw : option string) :=
                      age <- Prisma.Int_arg (Number (cp_age req)) ;;
                      updated <- Prisma.update now db userId
                        (Prisma.mkUpdate None pw (Some age) (Some gender)
                           None None None (Some true)) ;;
                      let (updatedUser, db') := updated in
                      Ret (mkResponse 200
                             (UserBody (Some "Profile completed successfully")
                                (Prisma.select complete_select updatedUser)
                                None),
                           db') in
                    if (Prisma.provider currentUser =? "google")%string
                       && truthy (cp_password req)
                    then
                      if length_lt (cp_password req) 6
                      then Ret (reject 400
                                  "Password must be at least 6 characters long",
                                db)
                      else
                        h <- hash_of (cp_password req) ;;
                        finish (Some h)
                    else finish None
                end
        end
  end.

(** POST /complete-profile *)
Definition completeProfile `{Runtime} (now : Z) (db : Prisma.DB)
  (req : CompleteProfileRequest) : Response * Prisma.DB :=
  try_catch (completeProfile_try now db req) (internal_error, db).

(** POST /logout *)
Definition logout : Response :=
  mkResponse 200 (MessageBody "Logged out successfully").

(** GET /me: here a token that does not verify is caught as 401. *)
Definition me `{Runtime} (db : Prisma.DB) (authorization : option string)
  : Response :=
  match bearer authorization with
  | None => reject 401 "No token provided"
  | Some token =>
      if (token =? "")%string
      then reject 401 "No token provided"
      else
        match jwt_verify token with
        | None => reject 401 "Invalid token"
        | Some userId =>
            match Prisma.findUnique_id db userId with
            | None => reject 401 "User not found"
            | Some user =>
                mkResponse 200
                  (UserBody None (Prisma.select signup_select user) None)
            end
        end
  end.

(** Where GET /google/callback sends the browser. [RedirectWith page
    token user] is the URL
    [http://localhost:3000/<page>?token=<token>&user=<user as JSON>],
    whose user object has the keys of [signup_select]. *)
Inductive Redirect : Type :=
| RedirectSignin (error : string)
| RedirectWith (page : string) (token : string) (user : Prisma.View).

(** Truthiness of a nullable integer column. *)
Definition truthy_int (o : option Z) : bool :=
  match o with
  | Some z => negb (z =? 0)%Z
  | None => false
  end.

(** GET /google/callback, after the strategy left the account in
    [req.user]. *)
Definition googleCallback `{Runtime} (db : Prisma.DB) (passportUser : nat)
  : Redirect :=
  match Prisma.findUnique_id db passportUser with
  | None => RedirectSignin "user_not_found"
  | Some user =>
      if negb (truthy_int (Prisma.age user))
         || negb (truthy_str (Prisma.gender user))
         || negb (Prisma.isProfileComplete user)
      then RedirectWith "complete-profile" (generateToken (Prisma.id user))
             (Prisma.select signup_select user)
      else RedirectWith "profile" (generateToken (Prisma.id user))
             (Prisma.select signup_select user)
  end.

End Auth.

(* ===================================================================== *)
(** ** auth/passport.ts: the Google strategy's verify callback *)
(* ===================================================================== *)

Module Passport.

(** The fields of the provider's [Profile] the callback reads. [emails]
    and [photos] are optional arrays of [{ value }]. *)
Record Profile : Type := mkProfile {
  p_id : string;
  displayName : string;
  emails : option (list string);
  photos : option (list string)
}.

(** What [done] is called with. *)
Inductive Done : Type :=
| DoneError
| DoneUser (user : Prisma.User).

(** [xs?.[0].value]: [undefined] when the array is absent, a TypeError
    when it is empty. *)
Definition first_value (xs : option (list string)) : exn (option string) :=
  match xs with
  | None => Ret None
  | Some [] => Throw
  | Some (v :: _) => Ret (Some v)
  end.

(** The guard [!user.profilePicture && profile.photos?.[0].value]: the
    photo to store, if the guard holds. *)
Definition and_then_value (a : bool) (b : exn (option string))
  : exn (option string) :=
  if a
  then v <- b ;; Ret (if Js.truthy_str v then v else None)
  else Ret None.

Definition verify_try (now : Z) (db : Prisma.DB) (profile : Profile)
  : exn (Done * Prisma.DB) :=
  email <- first_value (emails profile) ;;
  if negb (Js.truthy_str email)
  then Ret (DoneError, db)
  else
    let email := match email with Some e => e | None => "" end in
    match Prisma.findUnique_email db email with
    | None =>
        photo <- first_value (photos profile) ;;
        created <- Prisma.create now db
                     (Prisma.mkCreate (displayName profile) email None None
                        None photo "google" (Some (p_id profile)) false) ;;
        let (user, db') := created in
        Ret (DoneUser user, db')
    | Some user =>
        newPicture <- and_then_value
                        (negb (Js.truthy_str (Prisma.profilePicture user)))
                        (first_value (photos profile)) ;;
        let isProfileComplete :=
          match Prisma.age user, Prisma.gender user with
          | Some _, Some _ => true
          | _, _ => false
          end in
        updated <- Prisma.update now db (Prisma.id user)
                     (Prisma.mkUpdate
                        (if negb (Prisma.name user =? displayName profile)%string
                         then Some (displayName profile) else None)
                        None None None
                        (match newPicture with
                         | Some url => Some (Some url)
                         | None => None
                         end)
                        (Some "google") (Some (p_id profile))
                        (Some isProfileComplete)) ;;
        let (user', db') := updated in
        Ret (DoneUser user', db')
    end.

(** The callback: [catch (err) { done(err) }]. *)
Definition verify (now : Z) (db : Prisma.DB) (profile : Profile)
  : Done * Prisma.DB :=
  try_catch (verify_try now db profile) (DoneError, db).

End Passport.

(* ===================================================================== *)
(** ** routes/user.ts *)
(* ===================================================================== *)

Module UserRoutes.

Import Js.

(** Every handler below runs behind [authenticateToken], which leaves the
    caller in [req.user]; [None] is an absent [req.user]. *)

Definition profile_select : list Prisma.Field :=
  [Prisma.FId; Prisma.FName; Prisma.FEmail; Prisma.FAge; Prisma.FGender;
   Prisma.FProfilePicture; Prisma.FProvider; Prisma.FPassword;
   Prisma.FCreatedAt; Prisma.FUpdatedAt].

(** GET /profile; it never writes and nothing in its [try] throws. *)
Definition getProfile (db : Prisma.DB) (user : option nat) : Response :=
  match user with
  | None => reject 401 "Unauthorized"
  | Some uid =>
      match Prisma.findUnique_id db uid with
      | None => reject 404 "User not found"
      | Some dbUser =>
          mkResponse 200 (UserBody None (Prisma.select profile_select dbUser) None)
      end
  end.

Record UpdateProfileRequest : Type := mkUpdateProfile {
  up_name : jsval;
  up_age : jsval;
  up_gender : jsval;
  up_file : option Cloudinary.upload_answer
}.

Definition update_select : list Prisma.Field :=
  [Prisma.FId; Prisma.FName; Prisma.FEmail; Prisma.FAge; Prisma.FGender;
   Prisma.FProfilePicture; Prisma.FProvider; Prisma.FCreatedAt;
   Prisma.FUpdatedAt].

(** [currentUser?.profilePicture] as an update value: [undefined] without
    a row, else the column ([null] or a string). *)
Definition current_picture (currentUser : option Prisma.User)
  : option (option string) :=
  match currentUser with
  | None => None
  | Some u => Some (Prisma.profilePicture u)
  end.

Definition updateProfile_try `{Runtime} (now : Z) (db : Prisma.DB)
  (uid : nat) (req : UpdateProfileRequest) : exn (Response * Prisma.DB) :=
  if negb (truthy (up_name req))
  then Ret (reject 400 "Name is required", db)
  else if truthy (up_age req) && negb (isValidAge (Number (up_age req)))
  then Ret (reject 400 "Age must be between 13 and 120", db)
  else
    badGender <- and_then (truthy (up_gender req))
                   (ok <- isValidGender (up_gender req) ;; Ret (negb ok)) ;;
    if badGender
    then Ret (reject 400 "Invalid gender selection", db)
    else
      let currentUser := Prisma.findUnique_id db uid in
      (* With a file, the old image is deleted from the image store first;
         a failure there is logged and ignored, and the table is not
         involved. *)
      match match up_file req with
            | Some file =>
                match Cloudinary.uploadImage file with
                | Ret url => Ret (Some (Some url))
                | Throw => Throw
                end
            | None => Ret (current_picture currentUser)
            end with
      | Throw => Ret (reject 400 "Failed to upload image", db)
      | Ret profilePictureUrl =>
          name <- Prisma.String_arg (up_name req) ;;
          age <- (if truthy (up_age req)
                  then z <- Prisma.Int_arg (Number (up_age req)) ;; Ret (Some z)
                  else Ret None) ;;
          gender <- (if truthy (up_gender req)
                     then g <- toLowerCase_of (up_gender req) ;; Ret (Some g)
                     else Ret None) ;;
          updated <- Prisma.update now db uid
                       (Prisma.mkUpdate (Some name) None age gender
                          profilePictureUrl None None
                          (Some (truthy (up_age req) && truthy (up_gender req)))) ;;
          let (updatedUser, db') := updated in
          Ret (mkResponse 200
                 (UserBody (Some "Profile updated successfully")
                    (Prisma.select update_select updatedUser) None),
               db')
      end.

(** PUT /profile *)
Definition updateProfile `{Runtime} (now : Z) (db : Prisma.DB)
  (user : option nat) (req : UpdateProfileRequest) : Response * Prisma.DB :=
  match user with
  | None => (reject 401 "Unauthorized", db)
  | Some uid => try_catch (updateProfile_try now db uid req) (internal_error, db)
  end.

Definition deletePicture_try (now : Z) (db : Prisma.DB) (uid : nat)
  : exn (Response * Prisma.DB) :=
  let currentUser := Prisma.findUnique_id db uid in
  if negb (truthy_str (match currentUser with
                       | Some u => Prisma.profilePicture u
                       | None => None
                       end))
  then Ret (reject 400 "No profile picture to delete", db)
  else
    (* The image is deleted from the image store; a failure there is
       logged and ignored. *)
    updated <- Prisma.update now db uid
                 (Prisma.mkUpdate None None None None (Some None) None None None) ;;
    let (updatedUser, db') := updated in
    Ret (mkResponse 200
           (UserBody (Some "Profile picture deleted successfully")
              (Prisma.select update_select updatedUser) None),
         db').

(** DELETE /profile/picture *)
Definition deletePicture (now : Z) (db : Prisma.DB) (user : option nat)
  : Response * Prisma.DB :=
  match user with
  | None => (reject 401 "Unauthorized", db)
  | Some uid => try_catch (deletePicture_try now db uid) (internal_error, db)
  end.

Record ChangePasswordRequest : Type := mkChangePassword {
  currentPassword : jsval;
  newPassword : jsval
}.

Definition set_password `{Runtime} (now : Z) (db : Prisma.DB) (uid : nat)
  (newPassword : jsval) (message : string) : exn (Response * Prisma.DB) :=
  hashedNewPassword <- hash_of newPassword ;;
  updated <- Prisma.update now db uid
               (Prisma.mkUpdate None (Some hashedNewPassword) None None None
                  None None None) ;;
  Ret (mkResponse 200 (MessageBody message), snd updated).

Definition changePassword_try `{Runtime} (now : Z) (db : Prisma.DB)
  (uid : nat) (req : ChangePasswordRequest) : exn (Response * Prisma.DB) :=
  if negb (truthy (newPassword req))
  then Ret (reject 400 "New password is required", db)
  else if length_lt (newPassword req) 6
  then Ret (reject 400 "New password must be at least 6 characters long", db)
  else
    match Prisma.findUnique_id db uid with
    | None => Ret (reject 404 "User not found", db)
    | Some dbUser =>
        if (Prisma.provider dbUser =? "google")%string
           && negb (truthy_str (Prisma.password dbUser))
        then set_password now db uid (newPassword req) "Password set successfully"
        else if negb (truthy (currentPassword req))
        then Ret (reject 400 "Current password is required", db)
        else
          match Prisma.password dbUser with
          | None =>
              Ret (reject 400 "Password change not available for this user", db)
          | Some hash =>
              if (hash =? "")%string
              then Ret (reject 400
                          "Password change not available for this user", db)
              else
                isCurrentPasswordValid <- compare_of (currentPassword req) hash ;;
                if negb isCurrentPasswordValid
                then Ret (reject 400 "Current password is incorrect", db)
                else set_password now db uid (newPassword req)
                       "Password changed successfully"
          end
    end.

(** POST /change-password *)
Definition changePassword `{Runtime} (now : Z) (db : Prisma.DB)
  (user : option nat) (req : ChangePasswordRequest) : Response * Prisma.DB :=
  match user with
  | None => (reject 401 "Unauthorized", db)
  | Some uid => try_catch (changePassword_try now db uid req) (internal_error, db)
  end.

(** GET / : all users, newest first. *)
Definition listUsers (db : Prisma.DB) : list Prisma.View :=
  map (Prisma.select Auth.signup_select) (Prisma.orderBy_createdAt_desc db).

(** GET /:userId *)
Definition getUserById (db : Prisma.DB) (userId : nat) : Response :=
  match Prisma.findUnique_id db userId with
  | None => reject 404 "User not found"
  | Some dbUser =>
      mkResponse 200 (UserBody None (Prisma.select Auth.signup_select dbUser) None)
  end.

(** GET /analytics/overview. The three instants are what the handler's
    [Date] arithmetic yields from the clock: thirty days ago, seven days
    ago, and the start of today. *)
Record Overview : Type := mkOverview {
  totalUsers : nat;
  newUsers : nat;
  weeklyUsers : nat;
  todayUsers : nat
}.

Definition analyticsOverview (thirtyDaysAgo sevenDaysAgo today : Z)
  (db : Prisma.DB) : Overview :=
  mkOverview (List.length db)
             (Prisma.count_since db thirtyDaysAgo)
             (Prisma.count_since db sevenDaysAgo)
             (Prisma.count_since db today).

(** GET /analytics/gender: [stat.gender || "Not specified"] with
    [stat._count.gender]. *)
Definition analyticsGender (db : Prisma.DB) : list (string * nat) :=
  map (fun stat =>
         (if truthy_str (fst stat)
          then match fst stat with Some g => g | None => "" end
          else "Not specified",
          snd stat))
      (Prisma.groupBy_gender db).

(** GET /analytics/age *)
Definition ageGroups : list (string * nat) :=
  [("13-17", 0%nat); ("18-24", 0%nat); ("25-34", 0%nat); ("35-44", 0%nat);
   ("45-54", 0%nat); ("55-64", 0%nat); ("65+", 0%nat)].

(** The branch of the [if ... else if] chain an age takes. *)
Definition ageRange (age : Z) : option string :=
  if ((13 <=? age) && (age <=? 17))%Z then Some "13-17"
  else if ((18 <=? age) && (age <=? 24))%Z then Some "18-24"
  else if ((25 <=? age) && (age <=? 34))%Z then Some "25-34"
  else if ((35 <=? age) && (age <=? 44))%Z then Some "35-44"
  else if ((45 <=? age) && (age <=? 54))%Z then Some "45-54"
  else if ((55 <=? age) && (age <=? 64))%Z then Some "55-64"
  else if (65 <=? age)%Z then Some "65+"
  else None.

(** [groups[key]++] *)
Definition increment (key : string) (groups : list (string * nat))
  : list (string * nat) :=
  map (fun kv => if (fst kv =? key)%string then (fst kv, S (snd kv)) else kv)
      groups.

(** The body of the [forEach]; the query keeps the rows whose age is not
    NULL. *)
Definition countAge (groups : list (string * nat)) (user : Prisma.User)
  : list (string * nat) :=
  match Prisma.age user with
  | Some age =>
      match ageRange age with
      | Some key => increment key groups
      | None => groups
      end
  | None => groups
  end.

Definition analyticsAge (db : Prisma.DB) : list (string * nat) :=
  fold_left countAge db ageGroups.

Definition recent_select : list Prisma.Field :=
  [Prisma.FId; Prisma.FName; Prisma.FEmail; Prisma.FProfilePicture;
   Prisma.FCreatedAt; Prisma.FProvider].

(** GET /analytics/recent: the ten newest users. *)
Definition analyticsRecent (db : Prisma.DB) : list Prisma.View :=
  map (Prisma.select recent_select)
      (firstn 10 (Prisma.orderBy_createdAt_desc db)).

End UserRoutes.

(* ===================================================================== *)
(** ** Error kinds *)
(* ===================================================================== *)

Inductive ErrorKind : Type :=
| ValidationError
| DuplicateEmail
| InvalidCredentials
| NotFound
| Unauthorized
| UpstreamFailure
| NothingToDelete
| InternalError.

(** The kind of failure a status code and error message of the two route
    files stand for. Among the 401 answers, the two of POST /login refuse
    the credentials; the others are about the token. Among the 400
    answers, four name something other than malformed input. *)
Definition classify (code : nat) (msg : string) : ErrorKind :=
  if (code =? 404)%nat then NotFound
  else if (code =? 401)%nat then
    if Js.includes ["Invalid credentials"; "Please login with Google"] msg
    then InvalidCredentials else Unauthorized
  else if (code =? 400)%nat then
    if (msg =? "User with this email already exists")%string then DuplicateEmail
    else if (msg =? "No profile picture to delete")%string then NothingToDelete
    else if (msg =? "Current password is incorrect")%string then InvalidCredentials
    else if (msg =? "Failed to upload image")%string then UpstreamFailure
    else ValidationError
  else InternalError.

(** The failure a response reports, if it reports one. *)
Definition failure (r : Response) : option ErrorKind :=
  match body r with
  | ErrorBody msg => Some (classify (status r) msg)
  | _ => None
  end.

(* ===================================================================== *)
(** ** Properties of accounts and tables the statements speak of *)
(* ===================================================================== *)

Definition is_set {A : Type} (o : option A) : bool :=
  match o with
  | Some _ => true
  | None => false
  end.

(** The flag agrees with the presence of the two profile columns. *)
Definition profile_consistent (u : Prisma.User) : Prop :=
  Prisma.isProfileComplete u = is_set (Prisma.age u) && is_set (Prisma.gender u).

(** No two rows hold emails that are equal up to letter case. *)
Definition emails_distinct_ci (db : Prisma.DB) : Prop :=
  NoDup (map (fun u => Js.toLowerCase (Prisma.email u)) db).


(** The account has a stored secret hash, as the handlers test it. *)
Definition has_credential (u : Prisma.User) : bool :=
  Js.truthy_str (Prisma.password u).

(** The account has a picture, as the handlers test it. *)
Definition has_picture (u : Prisma.User) : bool :=
  Js.truthy_str (Prisma.profilePicture u).

(* ===================================================================== *)
(** ** The requests that may write, and the tables they reach *)
(* ===================================================================== *)

Module App.

(** The routes of api/index.ts whose handlers write to the table, and the
    Google strategy's callback. *)
Inductive Request : Type :=
| Signup (req : Auth.SignupRequest)
| GoogleLogin (profile : Passport.Profile)
| CompleteProfile (req : Auth.CompleteProfileRequest)
| UpdateProfile (user : option nat) (req : UserRoutes.UpdateProfileRequest)
| DeletePicture (user : option nat)
| ChangePassword (user : option nat) (req : UserRoutes.ChangePasswordRequest).

(** The table after a request served at time [now]. *)
Definition handle `{Runtime} (now : Z) (db : Prisma.DB) (r : Request)
  : Prisma.DB :=
  match r with
  | Signup req => snd (Auth.signup now db req)
  | GoogleLogin profile => snd (Passport.verify now db profile)
  | CompleteProfile req => snd (Auth.completeProfile now db req)
  | UpdateProfile user req => snd (UserRoutes.updateProfile now db user req)
  | DeletePicture user => snd (UserRoutes.deletePicture now db user)
  | ChangePassword user req => snd (UserRoutes.changePassword now db user req)
  end.

Fixpoint run `{Runtime} (trace : list (Z * Request)) (db : Prisma.DB)
  : Prisma.DB :=
  match trace with
  | [] => db
  | (now, r) :: rest => run rest (handle now db r)
  end.

(** A table some sequence of requests produces from the empty table. *)
Definition reachable `{Runtime} (db : Prisma.DB) : Prop :=
  exists trace, run trace [] = db.

End App.

(** The trace has no PUT /profile. *)
Definition without_profile_update (trace : list (Z * App.Request)) : Prop :=
  Forall (fun tr => match snd tr with
                    | App.UpdateProfile _ _ => False
                    | _ => True
                    end) trace.


Definition valid_genders : list string :=
  ["male"; "female"; "other"; "prefer-not-to-say"].

Definition age_ok (o : option Z) : Prop :=
  match o with
  | Some a => (13 <= a <= 120)%Z
  | None => True
  end.

Definition gender_ok (o : option string) : Prop :=
  match o with
  | Some g => In g valid_genders
  | None => True
  end.

(** The Google ids the table holds. *)
Definition google_ids (db : Prisma.DB) : list string :=
  flat_map (fun u => match Prisma.googleId u with
                     | Some g => [g]
                     | None => []
                     end) db.

(** The three unique keys of the table. *)
Definition keys_unique (db : Prisma.DB) : Prop :=
  NoDup (map Prisma.id db) /\ NoDup (map Prisma.email db)
  /\ NoDup (google_ids db).

(** A local account has a secret hash and no Google id; a Google account
    has a Google id. *)
Definition provenance_ok (u : Prisma.User) : Prop :=
  (Prisma.provider u = "credentials"
   /\ is_set (Prisma.password u) = true /\ Prisma.googleId u = None)
  \/ (Prisma.provider u = "google" /\ is_set (Prisma.googleId u) = true).

(** What every [create] of the handlers passes. *)
Definition created_ok (d : Prisma.CreateData) : Prop :=
  age_ok (Prisma.c_age d) /\ gender_ok (Prisma.c_gender d)
  /\ ((Prisma.c_provider d = "credentials"
       /\ is_set (Prisma.c_password d) = true /\ Prisma.c_googleId d = None)
      \/ (Prisma.c_provider d = "google"
          /\ is_set (Prisma.c_googleId d) = true)).

(** What every [update] of the handlers passes. *)
Definition updated_ok (d : Prisma.UpdateData) : Prop :=
  age_ok (Prisma.set_age d) /\ gender_ok (Prisma.set_gender d)
  /\ ((Prisma.set_provider d = None /\ Prisma.set_googleId d = None)
      \/ (Prisma.set_provider d = Some "google"
          /\ is_set (Prisma.set_googleId d) = true)).

(** A handler leaves the table alone, or performs one successful
    [create], or one successful [update]. *)
Inductive writes (now : Z) (db : Prisma.DB) : Prisma.DB -> Prop :=
| writes_nothing : writes now db db
| writes_create (d : Prisma.CreateData) (u : Prisma.User) (db' : Prisma.DB) :
    Prisma.create now db d = Ret (u, db') -> created_ok d -> writes now db db'
| writes_update (i : nat) (d : Prisma.UpdateData) (u' : Prisma.User)
    (db' : Prisma.DB) :
    Prisma.update now db i d = Ret (u', db') -> updated_ok d ->
    writes now db db'.


(** Every character of the string satisfies the predicate. *)
Fixpoint all_chars (p : ascii -> bool) (s : string) : bool :=
  match s with
  | EmptyString => true
  | String c r => p c && all_chars p r
  end.


(** [u] was created no earlier than [v]. *)
Definition newer (u v : Prisma.User) : Prop :=
  (Prisma.createdAt v <= Prisma.createdAt u)%Z.

(** Rows are ordered newest first. *)
Definition newest_first (rows : list Prisma.User) : Prop :=
  forall i j u v, (i <= j)%nat -> nth_error rows i = Some u ->
                  nth_error rows j = Some v ->
                  (Prisma.createdAt v <= Prisma.createdAt u)%Z.

(** The number of rows whose age falls in the range named [key]. *)
Definition in_range (key : string) (db : Prisma.DB) : nat :=
  List.length
    (filter (fun u => match Prisma.age u with
                      | Some a => match UserRoutes.ageRange a with
                                  | Some k => (k =? key)%string
                                  | None => false
                                  end
                      | None => false
                      end) db).

(* ===================================================================== *)
(** ** A sample runtime and sample requests *)
(* ===================================================================== *)

Module Sample.

(** Decimal literals only; any other text is not a number here. *)
Definition decimal (s : string) : Js.jsnum :=
  match NilEmpty.uint_of_string s with
  | Some u => Js.of_Z (Z.of_uint u)
  | None => Js.NaN
  end.

Definition hash (p : string) : string := "$2a$12$" ++ p.

Definition sign (userId : nat) : string :=
  "jwt." ++ NilEmpty.string_of_uint (Nat.to_uint userId).

Definition verify (token : string) : option nat :=
  if String.prefix "jwt." token
  then option_map Nat.of_uint
         (NilEmpty.uint_of_string (substring 4 (String.length token - 4) token))
  else None.

Definition runtime : Runtime :=
  {| StringToNumber := decimal;
     bcrypt_hash := hash;
     bcrypt_compare := fun p h => (h =? hash p)%string;
     jwt_sign := sign;
     jwt_verify := verify |}.

Definition alice : Auth.SignupRequest :=
  Auth.mkSignup (Js.JStr "Alice") (Js.JStr "alice@example.com")
    (Js.JStr "abcdef") (Js.JNum (Js.of_Z 25)) (Js.JStr "male") None.

(** The table after Alice's signup at time 1. *)
Definition db_alice : Prisma.DB := snd (@Auth.signup runtime 1 [] alice).

Definition google_alice : Passport.Profile :=
  Passport.mkProfile "g-100" "Alice" (Some ["Alice@Example.com"]) None.

Definition google_bob : Passport.Profile :=
  Passport.mkProfile "g-200" "Bob" (Some ["bob@example.com"])
    (Some ["https://img.example/bob.png"]).

(** The table after Bob's first Google login at time 1. *)
Definition db_bob : Prisma.DB := snd (Passport.verify 1 [] google_bob).

(** The table after Alice's first Google login at time 1, before any
    signup. *)
Definition db_google_alice : Prisma.DB := snd (Passport.verify 1 [] google_alice).

(** Bob's Google identity after he changed his address at the provider. *)
Definition google_bob_moved : Passport.Profile :=
  Passport.mkProfile "g-200" "Bob" (Some ["bob@new.example"]) None.

(** A profile update that renames Alice and sends neither age nor gender. *)
Definition rename_alice : UserRoutes.UpdateProfileRequest :=
  UserRoutes.mkUpdateProfile (Js.JStr "Alice B.") Js.JUndefined Js.JUndefined
    None.

(** A profile update that attaches a picture for Alice. *)
Definition picture_alice : UserRoutes.UpdateProfileRequest :=
  UserRoutes.mkUpdateProfile (Js.JStr "Alice") Js.JUndefined Js.JUndefined
    (Some (Cloudinary.UploadResult (Some "https://img.example/alice.png"))).

(** A profile completion for the bearer of user 1's token, with age 200. *)
Definition complete_200 : Auth.CompleteProfileRequest :=
  Auth.mkComplete (Some "Bearer jwt.1") (Js.JNum (Js.of_Z 200))
    (Js.JStr "male") Js.JUndefined.



(** Alice's Google identity under the spelling her signup stored. *)
Definition google_alice_exact : Passport.Profile :=
  Passport.mkProfile "g-100" "Alice A." (Some ["alice@example.com"])
    (Some ["https://img.example/alice.png"]).

(** A profile update with an age of 200. *)
Definition update_age_200 : UserRoutes.UpdateProfileRequest :=
  UserRoutes.mkUpdateProfile (Js.JStr "Alice") (Js.JStr "200") Js.JUndefined
    None.

(** Alice's signup as a trace of one request. *)
Definition trace_alice : list (Z * App.Request) := [(1%Z, App.Signup alice)].

End Sample.

(* ===================================================================== *)
(** ** Lemmas on the table *)
(* ===================================================================== *)

(** Case analysis on the scrutinee of the first [match] of a hypothesis. *)
Ltac break_in H :=
  match type of H with
  | context [match ?x with _ => _ end] =>
      let E := fresh "E" in destruct x eqn:E
  end.


Lemma truthy_str_Some (s : string) :
  Js.truthy_str (Some s) = true <-> s <> "".
Proof.
  simpl. destruct (String.eqb_spec s ""); simpl; split; intros; congruence.
Qed.


Lemma findUnique_id_sound (db : Prisma.DB) (i : nat) (u : Prisma.User) :
  Prisma.findUnique_id db i = Some u -> In u db /\ Prisma.id u = i.
Proof.
  unfold Prisma.findUnique_id. intros H. apply find_some in H.
  destruct H as [Hin Heq]. apply Nat.eqb_eq in Heq. auto.
Qed.

Lemma findUnique_email_sound (db : Prisma.DB) (e : string) (u : Prisma.User) :
  Prisma.findUnique_email db e = Some u -> In u db /\ Prisma.email u = e.
Proof.
  unfold Prisma.findUnique_email. intros H. apply find_some in H.
  destruct H as [Hin Heq]. apply String.eqb_eq in Heq. auto.
Qed.

Lemma findUnique_id_replace (db : Prisma.DB) (i : nat) (u u' : Prisma.User) :
  Prisma.findUnique_id db i = Some u -> Prisma.id u' = i ->
  Prisma.findUnique_id (Prisma.replace_row i u' db) i = Some u'.
Proof.
  unfold Prisma.findUnique_id. intros Hfind Hid.
  induction db as [|v rest IH]; simpl in *; [discriminate|].
  destruct (Prisma.id v =? i)%nat eqn:Ev; simpl.
  - rewrite Hid, Nat.eqb_refl. reflexivity.
  - rewrite Ev. auto.
Qed.

Lemma replace_row_length (db : Prisma.DB) (i : nat) (u' : Prisma.User) :
  List.length (Prisma.replace_row i u' db) = List.length db.
Proof.
  induction db as [|v rest IH]; simpl; [reflexivity|].
  destruct (Prisma.id v =? i)%nat; simpl; congruence.
Qed.

(** An update that leaves [googleId] alone succeeds on an existing row. *)
Lemma update_existing (now : Z) (db : Prisma.DB) (i : nat)
  (d : Prisma.UpdateData) (u : Prisma.User) :
  Prisma.findUnique_id db i = Some u -> Prisma.set_googleId d = None ->
  Prisma.update now db i d
  = Ret (Prisma.apply_update now d u,
         Prisma.replace_row i (Prisma.apply_update now d u) db).
Proof.
  intros Hfind Hg. unfold Prisma.update. rewrite Hfind, Hg. reflexivity.
Qed.

(** An update throws or rewrites one existing row. *)
Lemma update_inv (now : Z) (db db' : Prisma.DB) (i : nat)
  (d : Prisma.UpdateData) (u' : Prisma.User) :
  Prisma.update now db i d = Ret (u', db') ->
  exists u, Prisma.findUnique_id db i = Some u
            /\ u' = Prisma.apply_update now d u
            /\ db' = Prisma.replace_row i u' db.
Proof.
  unfold Prisma.update. intros H.
  destruct (Prisma.findUnique_id db i) as [u|]; [|discriminate].
  break_in H; [discriminate|]. inversion H; subst. eauto.
Qed.

Lemma fresh_id_above (db : Prisma.DB) (u : Prisma.User) :
  In u db -> (Prisma.id u < Prisma.fresh_id db)%nat.
Proof.
  intros Hin. unfold Prisma.fresh_id.
  assert (Hmax : (list_max (map Prisma.id db) <= list_max (map Prisma.id db))%nat)
    by lia.
  apply list_max_le in Hmax. rewrite Forall_forall in Hmax.
  specialize (Hmax (Prisma.id u) (in_map Prisma.id db u Hin)). lia.
Qed.

Lemma findUnique_id_fresh (db : Prisma.DB) :
  Prisma.findUnique_id db (Prisma.fresh_id db) = None.
Proof.
  destruct (Prisma.findUnique_id db (Prisma.fresh_id db)) as [u|] eqn:E;
    [|reflexivity].
  apply findUnique_id_sound in E. destruct E as [Hin Hid].
  apply fresh_id_above in Hin. lia.
Qed.

Lemma find_app_none {A : Type} (f : A -> bool) (xs ys : list A) :
  find f xs = None -> find f (xs ++ ys)%list = find f ys.
Proof.
  induction xs as [|x xs IH]; simpl; [reflexivity|].
  destruct (f x); [discriminate | assumption].
Qed.

Lemma existsb_app_false {A : Type} (f : A -> bool) (xs ys : list A) :
  existsb f xs = false -> existsb f (xs ++ ys)%list = existsb f ys.
Proof. intros H. rewrite existsb_app, H. reflexivity. Qed.

Lemma email_taken_find (db : Prisma.DB) (e : string) :
  Prisma.findUnique_email db e = None -> Prisma.email_taken db e = false.
Proof.
  unfold Prisma.findUnique_email, Prisma.email_taken.
  induction db as [|u rest IH]; simpl; [reflexivity|].
  destruct (Prisma.email u =? e)%string; [discriminate | assumption].
Qed.

(* ===================================================================== *)
(** ** Local login *)
(* ===================================================================== *)

Section Login.

Context {R : Runtime}.




End Login.

(* ===================================================================== *)
(** ** What the responses disclose *)
(* ===================================================================== *)

Section Disclosure.

Context {R : Runtime}.

Lemma signup_create_hides_password (now : Z) (db db' : Prisma.DB)
  (req : Auth.SignupRequest) (lower : string) (r : Response)
  (m : option string) (v : Prisma.View) (t : option string) :
  Auth.signup_create now db req lower = Ret (r, db') ->
  body r = UserBody m v t -> Prisma.v_password v = None.
Proof.
  unfold Auth.signup_create, bind. intros H Hb.
  repeat (break_in H; try discriminate);
    inversion H; subst; simpl in Hb; try discriminate;
    inversion Hb; reflexivity.
Qed.

Lemma signup_hides_password (now : Z) (db : Prisma.DB)
  (req : Auth.SignupRequest) (m : option string) (v : Prisma.View)
  (t : option string) :
  body (fst (Auth.signup now db req)) = UserBody m v t ->
  Prisma.v_password v = None.
Proof.
  unfold Auth.signup, try_catch.
  destruct (Auth.signup_try now db req) as [[r db']|] eqn:E;
    [|simpl; discriminate].
  simpl. revert E. unfold Auth.signup_try, bind, and_then.
  intros E Hb.
  repeat (break_in E; try discriminate);
    try (inversion E; subst; simpl in Hb; discriminate);
    eapply signup_create_hides_password; eauto.
Qed.

Lemma login_hides_password (db : Prisma.DB) (req : Auth.LoginRequest)
  (m : option string) (v : Prisma.View) (t : option string) :
  body (Auth.login db req) = UserBody m v t -> Prisma.v_password v = None.
Proof.
  unfold Auth.login, try_catch.
  destruct (Auth.login_try db req) as [r|] eqn:E; [|simpl; discriminate].
  revert E. unfold Auth.login_try, bind. intros E Hb.
  repeat (break_in E; try discriminate);
    inversion E; subst; simpl in Hb; try discriminate;
    inversion Hb; reflexivity.
Qed.

(** C10. GET /profile of an authenticated caller whose account exists
    answers 200 with the account's [password] column in the user object:
    the stored hash whenever one is set. The user objects of the signup
    and login responses have no [password] key. *)
Theorem getProfile_discloses_hash (db : Prisma.DB) (uid : nat)
  (u : Prisma.User) (Hfind : Prisma.findUnique_id db uid = Some u) :
  (exists v, UserRoutes.getProfile db (Some uid)
             = mkResponse 200 (UserBody None v None)
             /\ Prisma.v_password v = Some (Prisma.password u)
             /\ (forall h, Prisma.password u = Some h ->
                           Prisma.v_password v = Some (Some h)))
  /\ (forall now db0 req m v t,
         body (fst (Auth.signup now db0 req)) = UserBody m v t ->
         Prisma.v_password v = None)
  /\ (forall db0 req m v t,
         body (Auth.login db0 req) = UserBody m v t ->
         Prisma.v_password v = None).
Proof.
  split; [|split].
  - exists (Prisma.select UserRoutes.profile_select u).
    unfold UserRoutes.getProfile. rewrite Hfind.
    split; [reflexivity|]. split; [reflexivity|].
    intros h Hh. simpl. unfold Prisma.pick. simpl. rewrite Hh. reflexivity.
  - intros now db0 req m v t. apply signup_hides_password.
  - intros db0 req m v t. apply login_hides_password.
Qed.

End Disclosure.

(* ===================================================================== *)
(** ** Profile completion *)
(* ===================================================================== *)

Section CompleteProfile.

Context {R : Runtime}.

(** C6. A POST /complete-profile whose token verifies and whose age is
    not within 13 to 120 is answered with a validation error, and the
    table, hence the targeted account, is as it was. *)
Theorem completeProfile_age_out_of_range (now : Z) (db : Prisma.DB)
  (req : Auth.CompleteProfileRequest) (token : string) (uid : nat)
  (Hbearer : Auth.bearer (Auth.cp_authorization req) = Some token)
  (Htoken : token <> "")
  (Hverify : jwt_verify token = Some uid)
  (Hage : isValidAge (Number (Auth.cp_age req)) = false) :
  failure (fst (Auth.completeProfile now db req)) = Some ValidationError
  /\ status (fst (Auth.completeProfile now db req)) = 400%nat
  /\ snd (Auth.completeProfile now db req) = db.
Proof.
  unfold Auth.completeProfile, Auth.completeProfile_try.
  rewrite Hbearer.
  destruct (String.eqb_spec token ""); [contradiction|].
  rewrite Hverify, Hage.
  destruct (Js.truthy (Auth.cp_age req)), (Js.truthy (Auth.cp_gender req));
    simpl; auto.
Qed.

End CompleteProfile.

(* ===================================================================== *)
(** ** Secret change *)
(* ===================================================================== *)

Section ChangePassword.

Context {R : Runtime}.




End ChangePassword.

(* ===================================================================== *)
(** ** Picture attach and detach *)
(* ===================================================================== *)

Section Picture.

Context {R : Runtime}.

(** A PUT /profile that carries a file and answers 200 has stored the
    uploaded reference in the caller's row. *)
Lemma updateProfile_attached (now : Z) (db db1 : Prisma.DB) (uid : nat)
  (req : UserRoutes.UpdateProfileRequest) (file : Cloudinary.upload_answer)
  (r1 : Response) :
  UserRoutes.up_file req = Some file ->
  UserRoutes.updateProfile now db (Some uid) req = (r1, db1) ->
  status r1 = 200%nat ->
  exists url u1,
    Cloudinary.uploadImage file = Ret url
    /\ Prisma.findUnique_id db1 uid = Some u1
    /\ Prisma.profilePicture u1 = Some url.
Proof.
  intros Hfile Hrun Hok.
  unfold UserRoutes.updateProfile, try_catch in Hrun.
  destruct (UserRoutes.updateProfile_try now db uid req) as [[r db']|] eqn:E;
    [|inversion Hrun; subst; discriminate Hok].
  inversion Hrun; subst; clear Hrun.
  unfold UserRoutes.updateProfile_try in E. rewrite Hfile in E.
  unfold bind, and_then in E.
  destruct (Cloudinary.uploadImage file) as [url|] eqn:Eup.
  - exists url.
    repeat (break_in E; try discriminate);
      try (inversion E; subst; discriminate Hok);
      inversion E; subst;
      match goal with
      | Hu : Prisma.update _ _ _ _ = Ret _ |- _ =>
          apply update_inv in Hu; destruct Hu as [u0 [Hf [Hu' Hdb]]]
      end;
      subst; eexists; (split; [reflexivity|]);
      (split;
       [apply (findUnique_id_replace db uid u0); [exact Hf|];
        simpl; apply (findUnique_id_sound db uid u0 Hf)
       |reflexivity]).
  - repeat (break_in E; try discriminate);
      inversion E; subst; discriminate Hok.
Qed.

(** C8. For a caller whose account exists: (1) DELETE /profile/picture
    on an account without a picture fails with "No profile picture to
    delete" and leaves the table as it was; (2) after a PUT /profile that
    attached an uploaded picture, DELETE /profile/picture leaves the
    account without a picture: the column is null once the upload yielded
    a non-empty reference. *)
Theorem detachPicture_laws (now now' : Z) (db : Prisma.DB) (uid : nat)
  (u : Prisma.User) (Hfind : Prisma.findUnique_id db uid = Some u) :
  (has_picture u = false ->
   UserRoutes.deletePicture now db (Some uid)
   = (reject 400 "No profile picture to delete", db)
   /\ failure (fst (UserRoutes.deletePicture now db (Some uid)))
      = Some NothingToDelete)
  /\ (forall req file r1 db1,
         UserRoutes.up_file req = Some file ->
         UserRoutes.updateProfile now db (Some uid) req = (r1, db1) ->
         status r1 = 200%nat ->
         exists u2,
           Prisma.findUnique_id
             (snd (UserRoutes.deletePicture now' db1 (Some uid))) uid = Some u2
           /\ has_picture u2 = false
           /\ (forall url, Cloudinary.uploadImage file = Ret url -> url <> "" ->
                 status (fst (UserRoutes.deletePicture now' db1 (Some uid)))
                 = 200%nat
                 /\ Prisma.profilePicture u2 = None)).
Proof.
  split.
  - intros Hpic. unfold has_picture in Hpic.
    unfold UserRoutes.deletePicture, UserRoutes.deletePicture_try, try_catch.
    rewrite Hfind, Hpic. split; reflexivity.
  - intros req file r1 db1 Hfile Hrun Hok.
    destruct (updateProfile_attached now db db1 uid req file r1 Hfile Hrun Hok)
      as [url [u1 [Hup [Hf1 Hp1]]]].
    unfold UserRoutes.deletePicture, UserRoutes.deletePicture_try, try_catch.
    rewrite Hf1, Hp1.
    destruct (Js.truthy_str (Some url)) eqn:Et; cbn [negb].
    + erewrite update_existing by (try exact Hf1; reflexivity).
      cbn [bind snd fst].
      eexists. split.
      * apply (findUnique_id_replace db1 uid u1); [exact Hf1|].
        simpl. apply (findUnique_id_sound db1 uid u1 Hf1).
      * split; [reflexivity|]. intros; split; reflexivity.
    + exists u1. cbn [snd fst]. split; [exact Hf1|].
      split; [unfold has_picture; rewrite Hp1; exact Et|].
      intros url' Hup' Hne. rewrite Hup in Hup'. inversion Hup'; subst.
      apply truthy_str_Some in Hne. congruence.
Qed.

End Picture.

(* ===================================================================== *)
(** ** Federated login *)
(* ===================================================================== *)

Section Federated.

Lemma existsb_false_weaken {A : Type} (f g : A -> bool) (xs : list A) :
  (forall x, g x = true -> f x = true) ->
  existsb f xs = false -> existsb g xs = false.
Proof.
  intros Himp Hf. induction xs as [|x xs IH]; simpl in *; [reflexivity|].
  apply orb_false_iff in Hf. destruct Hf as [Hx Hxs].
  rewrite (IH Hxs), orb_false_r.
  destruct (g x) eqn:Eg; [|reflexivity].
  rewrite (Himp x Eg) in Hx. discriminate.
Qed.

(** The first login of an identity whose email and Google id no row
    holds appends one row. *)
Lemma verify_creates (now : Z) (db : Prisma.DB) (profile : Passport.Profile)
  (e : string) (es : list string) :
  Passport.emails profile = Some (e :: es) -> e <> "" ->
  Passport.photos profile <> Some [] ->
  Prisma.findUnique_email db e = None ->
  Prisma.googleId_taken db None (Some (Passport.p_id profile)) = false ->
  exists photo,
    Passport.first_value (Passport.photos profile) = Ret photo
    /\ Passport.verify now db profile
       = let u := Prisma.mkUser (Prisma.fresh_id db)
                    (Passport.displayName profile) e None None None photo
                    now now "google" (Some (Passport.p_id profile)) false in
         (Passport.DoneUser u, (db ++ [u])%list).
Proof.
  intros Hemails He Hphotos Hnew Hgid.
  assert (Hphoto : exists photo,
             Passport.first_value (Passport.photos profile) = Ret photo).
  { destruct (Passport.photos profile) as [[|ph phs]|]; simpl; eauto.
    contradiction. }
  destruct Hphoto as [photo Hphoto]. exists photo. split; [exact Hphoto|].
  unfold Passport.verify, Passport.verify_try.
  rewrite Hemails. cbn [Passport.first_value bind].
  rewrite (proj2 (truthy_str_Some e) He). cbn [negb].
  rewrite Hnew, Hphoto. cbn [bind]. unfold Prisma.create.
  cbn [Prisma.c_email Prisma.c_googleId].
  rewrite (email_taken_find db e Hnew), Hgid. reflexivity.
Qed.

Lemma replace_row_app_last (db : Prisma.DB) (i : nat) (u u' : Prisma.User) :
  (forall v, In v db -> Prisma.id v <> i) -> Prisma.id u = i ->
  Prisma.replace_row i u' (db ++ [u])%list = (db ++ [u'])%list.
Proof.
  intros Hother Hid. induction db as [|v rest IH]; simpl.
  - rewrite Hid, Nat.eqb_refl. reflexivity.
  - destruct (Nat.eqb_spec (Prisma.id v) i) as [Heq|Hneq].
    + exfalso. apply (Hother v); [left; reflexivity | exact Heq].
    + f_equal. apply IH. intros w Hw. apply Hother. right. exact Hw.
Qed.

(** C5, as amended. The first Google login of an identity whose email no
    row holds and whose Google id no row holds appends exactly one row,
    with provider "google" and the completion flag off; a second login
    with the same profile finds that row, rewrites it in place and
    appends nothing. *)
Theorem verify_new_identity_once (now now' : Z) (db : Prisma.DB)
  (profile : Passport.Profile) (e : string) (es : list string)
  (Hemails : Passport.emails profile = Some (e :: es))
  (He : e <> "")
  (Hphotos : Passport.photos profile <> Some [])
  (Hnew : Prisma.findUnique_email db e = None)
  (Hgid : Prisma.googleId_taken db None (Some (Passport.p_id profile)) = false) :
  exists u,
    Passport.verify now db profile = (Passport.DoneUser u, (db ++ [u])%list)
    /\ Prisma.provider u = "google"
    /\ Prisma.isProfileComplete u = false
    /\ exists u',
         Passport.verify now' (db ++ [u])%list profile
         = (Passport.DoneUser u', (db ++ [u'])%list)
         /\ Prisma.id u' = Prisma.id u.
Proof.
  destruct (verify_creates now db profile e es Hemails He Hphotos Hnew Hgid)
    as [photo [Hphoto Hrun]].
  cbv zeta in Hrun.
  set (u := Prisma.mkUser (Prisma.fresh_id db) (Passport.displayName profile)
              e None None None photo now now "google"
              (Some (Passport.p_id profile)) false) in *.
  exists u. split; [exact Hrun|]. split; [reflexivity|]. split; [reflexivity|].
  assert (Hfe : Prisma.findUnique_email (db ++ [u])%list e = Some u).
  { unfold Prisma.findUnique_email in *. rewrite (find_app_none _ _ _ Hnew).
    simpl. rewrite String.eqb_refl. reflexivity. }
  assert (Hfi : Prisma.findUnique_id (db ++ [u])%list (Prisma.fresh_id db)
                = Some u).
  { unfold Prisma.findUnique_id.
    rewrite (find_app_none _ _ _ (findUnique_id_fresh db)).
    simpl. rewrite Nat.eqb_refl. reflexivity. }
  assert (Hfree : Prisma.googleId_taken (db ++ [u])%list
                    (Some (Prisma.fresh_id db))
                    (Some (Passport.p_id profile)) = false).
  { unfold Prisma.googleId_taken. rewrite existsb_app. apply orb_false_iff.
    split.
    - apply (existsb_false_weaken
               (fun v => Prisma.opt_string_eqb (Prisma.googleId v)
                           (Some (Passport.p_id profile)) && true));
        [|exact Hgid].
      intros v Hv. apply andb_true_iff in Hv. destruct Hv as [Hv _].
      rewrite Hv. reflexivity.
    - simpl. rewrite Nat.eqb_refl, andb_false_r. reflexivity. }
  assert (Hrep : forall u', Prisma.replace_row (Prisma.fresh_id db) u'
                              (db ++ [u])%list = (db ++ [u'])%list).
  { intros u'. apply replace_row_app_last; [|reflexivity].
    intros v Hv. apply fresh_id_above in Hv. lia. }
  assert (Hpic : exists p,
             Passport.and_then_value
               (negb (Js.truthy_str (Prisma.profilePicture u)))
               (Passport.first_value (Passport.photos profile)) = Ret p).
  { unfold Passport.and_then_value. rewrite Hphoto. cbn [bind].
    destruct (negb (Js.truthy_str (Prisma.profilePicture u))); eauto. }
  destruct Hpic as [p Hpic].
  unfold Passport.verify, Passport.verify_try.
  rewrite Hemails. cbn [Passport.first_value bind].
  rewrite (proj2 (truthy_str_Some e) He). cbn [negb].
  rewrite Hfe, Hpic. cbn [bind]. unfold Prisma.update.
  change (Prisma.id u) with (Prisma.fresh_id db).
  rewrite Hfi. cbn [Prisma.set_googleId]. rewrite Hfree, Hrep.
  cbn [bind try_catch]. eexists. split; reflexivity.
Qed.

End Federated.

(* ===================================================================== *)
(** ** Local signup *)
(* ===================================================================== *)

Section Signup.

Context {R : Runtime}.

Lemma create_inv (now : Z) (db db' : Prisma.DB) (d : Prisma.CreateData)
  (u : Prisma.User) :
  Prisma.create now db d = Ret (u, db') ->
  db' = (db ++ [u])%list
  /\ u = Prisma.mkUser (Prisma.fresh_id db) (Prisma.c_name d) (Prisma.c_email d)
           (Prisma.c_password d) (Prisma.c_age d) (Prisma.c_gender d)
           (Prisma.c_profilePicture d) now now (Prisma.c_provider d)
           (Prisma.c_googleId d) (Prisma.c_isProfileComplete d).
Proof.
  unfold Prisma.create. intros H. break_in H; [discriminate|].
  inversion H; subst. split; reflexivity.
Qed.

(** A column written as [v ? f(v) : null] is set iff [v] is truthy. *)
Lemma optional_arg_set {A : Type} (b : bool) (m : exn A) (o : option A) :
  (if b then bind m (fun z => Ret (Some z)) else Ret None) = Ret o ->
  is_set o = b.
Proof.
  destruct b; [destruct m; simpl|]; intros H; inversion H; reflexivity.
Qed.

(** What POST /signup does to the table: nothing, unless it answers 201,
    and then it has appended one row built from the request. *)
Lemma signup_cases (now : Z) (db : Prisma.DB) (req : Auth.SignupRequest) :
  (snd (Auth.signup now db req) = db
   /\ status (fst (Auth.signup now db req)) <> 201%nat)
  \/ (exists e u,
         Auth.su_email req = Js.JStr e
         /\ Prisma.findUnique_email db (Js.toLowerCase e) = None
         /\ snd (Auth.signup now db req) = (db ++ [u])%list
         /\ status (fst (Auth.signup now db req)) = 201%nat
         /\ Prisma.email u = Js.toLowerCase e
         /\ Prisma.provider u = "credentials"
         /\ is_set (Prisma.password u) = true
         /\ is_set (Prisma.age u) = Js.truthy (Auth.su_age req)
         /\ is_set (Prisma.gender u) = Js.truthy (Auth.su_gender req)
         /\ Prisma.isProfileComplete u
            = Js.truthy (Auth.su_age req) && Js.truthy (Auth.su_gender req)).
Proof.
  unfold Auth.signup, try_catch.
  destruct (Auth.signup_try now db req) as [[r db']|] eqn:E;
    [|left; split; [reflexivity | simpl; discriminate]].
  cbn [fst snd].
  unfold Auth.signup_try, bind, and_then in E.
  repeat (break_in E; try discriminate);
    try (inversion E; subst; left; split; [reflexivity | simpl; discriminate]).
  all: unfold toLowerCase_of in *;
    destruct (Auth.su_email req) as [| |b|n|e]; try discriminate;
    match goal with
    | Hl : Ret _ = Ret _ |- _ => inversion Hl; subst; clear Hl
    end.
  all: unfold Auth.signup_create, bind in E;
    repeat (break_in E; try discriminate);
    try (inversion E; subst; left; split; [reflexivity | simpl; discriminate]).
  all: inversion E; subst; clear E; right;
    match goal with
    | Hc : Prisma.create _ _ _ = Ret _ |- _ =>
        apply create_inv in Hc; destruct Hc as [Hdb Hu]
    end;
    subst; exists e; eexists;
    (split; [reflexivity|]); (split; [assumption|]);
    (split; [reflexivity|]); (split; [reflexivity|]);
    cbn -[Js.toLowerCase Js.truthy];
    repeat split; eauto using optional_arg_set.
Qed.

(** X26. The row a successful signup creates has its completion flag equal to
    the presence of age and gender. *)
Lemma signup_created_consistent (now : Z) (db : Prisma.DB)
  (req : Auth.SignupRequest) :
  status (fst (Auth.signup now db req)) = 201%nat ->
  exists u, snd (Auth.signup now db req) = (db ++ [u])%list
            /\ profile_consistent u.
Proof.
  intros Hok.
  destruct (signup_cases now db req)
    as [[_ Hne] | [e [u [_ [_ [Hdb [_ [_ [_ [_ [Ha [Hg Hf]]]]]]]]]]]];
    [contradiction|].
  exists u. split; [exact Hdb|].
  unfold profile_consistent. rewrite Hf, Ha, Hg. reflexivity.
Qed.

Lemma signup_preserves_consistent (now : Z) (db : Prisma.DB)
  (req : Auth.SignupRequest) :
  Forall profile_consistent db ->
  Forall profile_consistent (snd (Auth.signup now db req)).
Proof.
  intros Hinv.
  destruct (signup_cases now db req)
    as [[Hdb _] | [e [u [_ [_ [Hdb [_ [_ [_ [_ [Ha [Hg Hf]]]]]]]]]]]];
    rewrite Hdb; [exact Hinv|].
  apply Forall_app. split; [exact Hinv|].
  constructor; [|constructor].
  unfold profile_consistent. rewrite Hf, Ha, Hg. reflexivity.
Qed.






End Signup.

(* ===================================================================== *)
(** ** The completion flag as an invariant of the table *)
(* ===================================================================== *)

Section CompletionFlag.

Context {R : Runtime}.

Lemma Forall_replace_row (P : Prisma.User -> Prop) (db : Prisma.DB) (i : nat)
  (u' : Prisma.User) :
  Forall P db -> P u' -> Forall P (Prisma.replace_row i u' db).
Proof.
  intros Hall Hu. induction Hall as [|v rest Hv Hrest IH]; simpl;
    [constructor|].
  destruct (Prisma.id v =? i)%nat; constructor; assumption.
Qed.

Lemma findUnique_id_of_row (db : Prisma.DB) (u : Prisma.User) :
  NoDup (map Prisma.id db) -> In u db ->
  Prisma.findUnique_id db (Prisma.id u) = Some u.
Proof.
  unfold Prisma.findUnique_id.
  induction db as [|v rest IH]; simpl; intros Hnd Hin; [contradiction|].
  inversion Hnd as [|x xs Hnotin Hrest]; subst.
  destruct Hin as [->|Hin]; [rewrite Nat.eqb_refl; reflexivity|].
  destruct (Nat.eqb_spec (Prisma.id v) (Prisma.id u)) as [Heq|_].
  - exfalso. apply Hnotin. rewrite Heq. apply in_map. exact Hin.
  - apply IH; assumption.
Qed.

(** The Google callback recomputes the flag from the stored columns. *)
Lemma verify_preserves_consistent (now : Z) (db : Prisma.DB)
  (profile : Passport.Profile) :
  NoDup (map Prisma.id db) ->
  Forall profile_consistent db ->
  Forall profile_consistent (snd (Passport.verify now db profile)).
Proof.
  intros Hids Hinv. unfold Passport.verify, try_catch.
  destruct (Passport.verify_try now db profile) as [[d db']|] eqn:E;
    [|exact Hinv].
  cbn [snd]. unfold Passport.verify_try, bind in E.
  repeat (break_in E; try discriminate); inversion E; subst; try exact Hinv.
  - match goal with
    | Hu : Prisma.update _ _ _ _ = Ret _ |- _ =>
        apply update_inv in Hu; destruct Hu as [x [Hx [Hrow Hdb]]]
    end.
    match goal with
    | Hf : Prisma.findUnique_email _ _ = Some _ |- _ =>
        apply findUnique_email_sound in Hf; destruct Hf as [Hin _]
    end.
    rewrite (findUnique_id_of_row db _ Hids Hin) in Hx.
    inversion Hx; subst. apply Forall_replace_row; [exact Hinv|].
    unfold profile_consistent. simpl.
    destruct (Prisma.age x), (Prisma.gender x); reflexivity.
  - match goal with
    | Hc : Prisma.create _ _ _ = Ret _ |- _ =>
        apply create_inv in Hc; destruct Hc as [Hdb Hrow]
    end.
    subst. apply Forall_app. split; [exact Hinv|].
    constructor; [reflexivity | constructor].
Qed.

(** POST /complete-profile writes both columns and turns the flag on. *)
Lemma completeProfile_preserves_consistent (now : Z) (db : Prisma.DB)
  (req : Auth.CompleteProfileRequest) :
  Forall profile_consistent db ->
  Forall profile_consistent (snd (Auth.completeProfile now db req)).
Proof.
  intros Hinv. unfold Auth.completeProfile, try_catch.
  destruct (Auth.completeProfile_try now db req) as [[r db']|] eqn:E;
    [|exact Hinv].
  cbn [snd]. unfold Auth.completeProfile_try, bind in E.
  repeat (break_in E; try discriminate); inversion E; subst; try exact Hinv.
  all: match goal with
       | Hu : Prisma.update _ _ _ _ = Ret _ |- _ =>
           apply update_inv in Hu; destruct Hu as [x [Hx [Hrow Hdb]]]
       end;
    subst; apply Forall_replace_row; [exact Hinv | reflexivity].
Qed.

End CompletionFlag.

(* ===================================================================== *)
(** ** The handlers at the sample requests *)
(* ===================================================================== *)

(** C1. PUT /profile computes the completion flag from the request and
    leaves absent columns alone: after Alice's signup with age 25 and
    gender "male" (flag on), a PUT /profile that only renames her answers
    200 and leaves a row with age and gender still set and the flag off. *)
Theorem updateProfile_breaks_completion_flag :
  let out := @UserRoutes.updateProfile Sample.runtime 2 Sample.db_alice
               (Some 1%nat) Sample.rename_alice in
  Forall profile_consistent Sample.db_alice
  /\ status (fst out) = 200%nat
  /\ exists u, snd out = [u]
               /\ Prisma.age u = Some 25%Z
               /\ Prisma.gender u = Some "male"
               /\ Prisma.isProfileComplete u = false
               /\ ~ profile_consistent u.
Proof.
  cbv zeta. split; [|split].
  - repeat constructor.
  - reflexivity.
  - eexists. split; [vm_compute; reflexivity|].
    repeat split. unfold profile_consistent. simpl. discriminate.
Qed.

(** C2. The Google callback looks the email up as the provider spells
    it: after Alice's signup, a Google login whose profile email is
    "Alice@Example.com" creates a second row, and the two rows hold
    emails that are equal up to letter case. *)
Theorem verify_duplicates_email_up_to_case :
  let out := Passport.verify 2 Sample.db_alice Sample.google_alice in
  emails_distinct_ci Sample.db_alice
  /\ exists u1 u2, snd out = [u1; u2]
                   /\ Prisma.email u1 = "alice@example.com"
                   /\ Prisma.email u2 = "Alice@Example.com"
                   /\ Js.toLowerCase (Prisma.email u1)
                      = Js.toLowerCase (Prisma.email u2)
                   /\ ~ emails_distinct_ci (snd out).
Proof.
  cbv zeta. split.
  - unfold emails_distinct_ci. vm_compute. repeat constructor. intros [].
  - eexists. eexists. split; [vm_compute; reflexivity|].
    repeat split. unfold emails_distinct_ci. vm_compute.
    intros Hnd. inversion Hnd as [|x xs Hnotin _]; subst.
    apply Hnotin. left. reflexivity.
Qed.

(** C3. After a Google login that stored "Alice@Example.com", a signup
    with "alice@example.com" is not rejected: it answers 201 and appends
    a second row. *)
Theorem signup_misses_mixed_case_duplicate :
  let out := @Auth.signup Sample.runtime 2 Sample.db_google_alice
               Sample.alice in
  (exists u, Sample.db_google_alice = [u]
             /\ Js.toLowerCase (Prisma.email u)
                = Js.toLowerCase "alice@example.com")
  /\ status (fst out) = 201%nat
  /\ failure (fst out) = None
  /\ List.length (snd out) = 2%nat.
Proof.
  cbv zeta. split; [|split; [|split]].
  - eexists. split; vm_compute; reflexivity.
  - reflexivity.
  - reflexivity.
  - reflexivity.
Qed.

(** C5 as stated fails: Bob's Google id "g-200" is bound to the row
    "bob@example.com"; a login of the same Google id under the email
    "bob@new.example", which no row holds, hits the unique index on
    [googleId], calls [done] with the error and creates nothing. *)
Lemma verify_new_email_bound_google_id :
  Prisma.findUnique_email Sample.db_bob "bob@new.example" = None
  /\ Passport.verify 2 Sample.db_bob Sample.google_bob_moved
     = (Passport.DoneError, Sample.db_bob)
  /\ ~ (exists u, snd (Passport.verify 2 Sample.db_bob Sample.google_bob_moved)
                  = (Sample.db_bob ++ [u])%list).
Proof.
  split; [reflexivity|]. split; [reflexivity|].
  intros [u Hu]. vm_compute in Hu. discriminate Hu.
Qed.

(* ===================================================================== *)
(** ** The theorems at the sample requests *)
(* ===================================================================== *)



(** Alice reads her profile and gets her hash. *)
Lemma getProfile_discloses_hash_witness :
  exists u v,
    Prisma.findUnique_id Sample.db_alice 1 = Some u
    /\ UserRoutes.getProfile Sample.db_alice (Some 1%nat)
       = mkResponse 200 (UserBody None v None)
    /\ Prisma.v_password v = Some (Some "$2a$12$abcdef").
Proof.
  eexists.
  destruct (proj1 (@getProfile_discloses_hash Sample.runtime Sample.db_alice
                     1%nat _ eq_refl)) as [v [Hrun [_ Hhash]]].
  exists v. split; [reflexivity|]. split; [exact Hrun|].
  apply Hhash. reflexivity.
Defined.

(** Bob completes his profile with age 200. *)
Lemma completeProfile_age_out_of_range_witness :
  @isValidAge (@Number Sample.runtime (Auth.cp_age Sample.complete_200)) = false
  /\ failure (fst (@Auth.completeProfile Sample.runtime 2 Sample.db_bob
                     Sample.complete_200)) = Some ValidationError
  /\ status (fst (@Auth.completeProfile Sample.runtime 2 Sample.db_bob
                    Sample.complete_200)) = 400%nat
  /\ snd (@Auth.completeProfile Sample.runtime 2 Sample.db_bob
            Sample.complete_200) = Sample.db_bob.
Proof.
  split; [reflexivity|].
  apply (@completeProfile_age_out_of_range Sample.runtime 2 Sample.db_bob
           Sample.complete_200 "jwt.1" 1%nat);
    try discriminate; reflexivity.
Defined.


(** Alice has no picture to delete; she attaches one and deletes it. *)
Lemma detachPicture_laws_witness :
  UserRoutes.deletePicture 2 Sample.db_alice (Some 1%nat)
  = (reject 400 "No profile picture to delete", Sample.db_alice)
  /\ exists u2,
       Prisma.findUnique_id
         (snd (UserRoutes.deletePicture 3
                 (snd (@UserRoutes.updateProfile Sample.runtime 2
                         Sample.db_alice (Some 1%nat) Sample.picture_alice))
                 (Some 1%nat))) 1 = Some u2
       /\ has_picture u2 = false
       /\ Prisma.profilePicture u2 = None.
Proof.
  pose proof (@detachPicture_laws Sample.runtime 2 3 Sample.db_alice 1%nat _
                eq_refl) as [Hnone Hround].
  split; [exact (proj1 (Hnone eq_refl))|].
  destruct (Hround Sample.picture_alice _ _ _ eq_refl eq_refl eq_refl)
    as [u2 [Hfind [Hpic Hnull]]].
  exists u2. split; [exact Hfind|]. split; [exact Hpic|].
  refine (proj2 (Hnull _ eq_refl _)). discriminate.
Defined.

(** Bob's first and second Google login on an empty table. *)
Lemma verify_new_identity_once_witness :
  exists u u',
    Passport.verify 1 [] Sample.google_bob = (Passport.DoneUser u, [u])
    /\ Prisma.provider u = "google"
    /\ Prisma.isProfileComplete u = false
    /\ Passport.verify 2 [u] Sample.google_bob = (Passport.DoneUser u', [u'])
    /\ Prisma.id u' = Prisma.id u.
Proof.
  destruct (verify_new_identity_once 1 2 [] Sample.google_bob
              "bob@example.com" [] eq_refl)
    as [u [Hrun [Hprov [Hflag [u' [Hagain Hid]]]]]];
    try discriminate; try reflexivity.
  exists u, u'. repeat split; assumption.
Defined.

(* ===================================================================== *)
(** ** What the handlers write *)
(* ===================================================================== *)

(** One step through the [try] block of a handler that returned: a
    statement that may throw did not, a test went one way. *)
Ltac step_exn E :=
  lazymatch type of E with
  | bind ?m _ = Ret _ =>
      let a := fresh "a" in
      let Hm := fresh "Hm" in
      destruct m as [a|] eqn:Hm; [cbn [bind] in E | discriminate E]
  | (let (_, _) := ?p in _) = Ret _ => destruct p
  | match ?x with _ => _ end = Ret _ =>
      let Hx := fresh "Hx" in destruct x eqn:Hx
  | Throw = Ret _ => discriminate E
  end.

Lemma isValidAge_bounds (n : Js.jsnum) (z : Z) :
  isValidAge n = true -> Prisma.Int_arg n = Ret z -> (13 <= z <= 120)%Z.
Proof.
  unfold isValidAge, Prisma.Int_arg, Js.as_integer.
  intros Hv Hi. destruct n as [| | |q]; try discriminate.
  destruct (Qden (Qred q) =? 1)%positive eqn:Eden; [|discriminate].
  destruct ((-2147483648 <=? Qnum (Qred q)) && (Qnum (Qred q) <=? 2147483647))%Z;
    [|discriminate].
  inversion Hi; subst; clear Hi.
  apply andb_true_iff in Hv. destruct Hv as [Hlo Hhi].
  simpl in Hlo, Hhi. apply Qle_bool_iff in Hlo, Hhi.
  assert (Hq : q == inject_Z (Qnum (Qred q))).
  { rewrite <- (Qred_correct q) at 1.
    apply Pos.eqb_eq in Eden.
    destruct (Qred q) as [num den]. simpl in *. subst. reflexivity. }
  rewrite Hq in Hlo, Hhi. rewrite <- Zle_Qle in Hlo, Hhi. lia.
Qed.

(** A column written as [age ? Number(age) : null] after the range check. *)
Lemma age_arg_ok {R : Runtime} (v : Js.jsval) (o : option Z) :
  Js.truthy v && negb (isValidAge (Number v)) = false ->
  (if Js.truthy v
   then bind (Prisma.Int_arg (Number v)) (fun z => Ret (Some z))
   else Ret None) = Ret o ->
  age_ok o.
Proof.
  intros Hc Hm. destruct (Js.truthy v); [|inversion Hm; exact I].
  destruct (Prisma.Int_arg (Number v)) as [z|] eqn:Ez; [|discriminate].
  inversion Hm; subst. simpl in Hc. apply negb_false_iff in Hc.
  exact (isValidAge_bounds _ _ Hc Ez).
Qed.

Lemma isValidGender_lower (v : Js.jsval) (g : string) :
  isValidGender v = Ret true -> toLowerCase_of v = Ret g -> In g valid_genders.
Proof.
  unfold isValidGender. intros Hv Hg. rewrite Hg in Hv. cbn [bind] in Hv.
  injection Hv as Hin. unfold Js.includes in Hin. cbn [existsb] in Hin.
  repeat (apply orb_true_iff in Hin; destruct Hin as [Hin|Hin]);
    try discriminate; apply String.eqb_eq in Hin; subst; simpl; tauto.
Qed.

(** A column written as [gender ? gender.toLowerCase() : null] after the
    check of the gender. *)
Lemma gender_arg_ok (v : Js.jsval) (o : option string) :
  and_then (Js.truthy v)
    (bind (isValidGender v) (fun ok => Ret (negb ok))) = Ret false ->
  (if Js.truthy v
   then bind (toLowerCase_of v) (fun g => Ret (Some g))
   else Ret None) = Ret o ->
  gender_ok o.
Proof.
  unfold and_then. intros Hc Hm.
  destruct (Js.truthy v); [|inversion Hm; exact I].
  destruct (toLowerCase_of v) as [g|] eqn:Eg; [|discriminate].
  inversion Hm; subst.
  destruct (isValidGender v) as [[]|] eqn:Ev; try discriminate.
  exact (isValidGender_lower v g Ev Eg).
Qed.

Section Writes.

Context {R : Runtime}.

Lemma signup_writes (now : Z) (db : Prisma.DB) (req : Auth.SignupRequest) :
  writes now db (snd (Auth.signup now db req)).
Proof.
  unfold Auth.signup, try_catch.
  destruct (Auth.signup_try now db req) as [[r db']|] eqn:E;
    [|apply writes_nothing].
  cbn [snd]. unfold Auth.signup_try in E.
  repeat step_exn E; try (inversion E; subst; apply writes_nothing).
  unfold Auth.signup_create in E.
  repeat step_exn E; try (inversion E; subst; apply writes_nothing).
  inversion E; subst; clear E.
  eapply writes_create; [eassumption|].
  split; [|split]; cbn [Prisma.c_age Prisma.c_gender Prisma.c_provider
                        Prisma.c_password Prisma.c_googleId].
  - eapply age_arg_ok; eassumption.
  - eapply gender_arg_ok; eassumption.
  - left. repeat split.
Qed.

Lemma verify_writes (now : Z) (db : Prisma.DB) (profile : Passport.Profile) :
  writes now db (snd (Passport.verify now db profile)).
Proof.
  unfold Passport.verify, try_catch.
  destruct (Passport.verify_try now db profile) as [[d db']|] eqn:E;
    [|apply writes_nothing].
  cbn [snd]. unfold Passport.verify_try in E.
  repeat step_exn E; inversion E; subst; clear E; try apply writes_nothing.
  - eapply writes_update; [eassumption|].
    split; [exact I|]. split; [exact I|]. right. split; reflexivity.
  - eapply writes_create; [eassumption|].
    split; [exact I|]. split; [exact I|]. right. split; reflexivity.
Qed.

Lemma completeProfile_writes (now : Z) (db : Prisma.DB)
  (req : Auth.CompleteProfileRequest) :
  writes now db (snd (Auth.completeProfile now db req)).
Proof.
  unfold Auth.completeProfile, try_catch.
  destruct (Auth.completeProfile_try now db req) as [[r db']|] eqn:E;
    [|apply writes_nothing].
  cbn [snd]. unfold Auth.completeProfile_try in E.
  repeat step_exn E; try (inversion E; subst; apply writes_nothing).
  all: inversion E; subst; clear E;
    (eapply writes_update; [eassumption|]);
    (split; [|split; [|left; split; reflexivity]]);
    cbn [Prisma.set_age Prisma.set_gender age_ok gender_ok];
    match goal with
    | Hv : negb (isValidAge _) = false |- (_ <= _ <= _)%Z =>
        apply negb_false_iff in Hv; eapply isValidAge_bounds; eassumption
    | Hn : negb ?ok = false |- In _ _ =>
        apply negb_false_iff in Hn; subst ok;
        eapply isValidGender_lower; eassumption
    end.
Qed.

Lemma updateProfile_writes (now : Z) (db : Prisma.DB) (user : option nat)
  (req : UserRoutes.UpdateProfileRequest) :
  writes now db (snd (UserRoutes.updateProfile now db user req)).
Proof.
  unfold UserRoutes.updateProfile, try_catch.
  destruct user as [uid|]; [|apply writes_nothing].
  destruct (UserRoutes.updateProfile_try now db uid req) as [[r db']|] eqn:E;
    [|apply writes_nothing].
  cbn [snd]. unfold UserRoutes.updateProfile_try in E.
  repeat step_exn E; try (inversion E; subst; apply writes_nothing).
  inversion E; subst; clear E.
  eapply writes_update; [eassumption|].
  split; [|split; [|left; split; reflexivity]];
    cbn [Prisma.set_age Prisma.set_gender].
  - eapply age_arg_ok; eassumption.
  - eapply gender_arg_ok; eassumption.
Qed.

Lemma deletePicture_writes (now : Z) (db : Prisma.DB) (user : option nat) :
  writes now db (snd (UserRoutes.deletePicture now db user)).
Proof.
  unfold UserRoutes.deletePicture, try_catch.
  destruct user as [uid|]; [|apply writes_nothing].
  destruct (UserRoutes.deletePicture_try now db uid) as [[r db']|] eqn:E;
    [|apply writes_nothing].
  cbn [snd]. unfold UserRoutes.deletePicture_try in E.
  repeat step_exn E; inversion E; subst; clear E; try apply writes_nothing.
  eapply writes_update; [eassumption|].
  split; [exact I|]. split; [exact I|]. left. split; reflexivity.
Qed.

Lemma set_password_writes (now : Z) (db db' : Prisma.DB) (uid : nat)
  (new : Js.jsval) (message : string) (r : Response) :
  UserRoutes.set_password now db uid new message = Ret (r, db') ->
  writes now db db'.
Proof.
  unfold UserRoutes.set_password. intros E.
  repeat step_exn E. inversion E; subst; clear E.
  match goal with
  | Hu : Prisma.update _ _ _ _ = Ret ?p |- _ => destruct p as [u' db']
  end.
  eapply writes_update; [eassumption|].
  split; [exact I|]. split; [exact I|]. left. split; reflexivity.
Qed.

Lemma changePassword_writes (now : Z) (db : Prisma.DB) (user : option nat)
  (req : UserRoutes.ChangePasswordRequest) :
  writes now db (snd (UserRoutes.changePassword now db user req)).
Proof.
  unfold UserRoutes.changePassword, try_catch.
  destruct user as [uid|]; [|apply writes_nothing].
  destruct (UserRoutes.changePassword_try now db uid req) as [[r db']|] eqn:E;
    [|apply writes_nothing].
  cbn [snd]. unfold UserRoutes.changePassword_try in E.
  repeat (first [ match type of E with
                  | UserRoutes.set_password _ _ _ _ _ = Ret _ => fail 2
                  end
                | step_exn E ]);
    try (inversion E; subst; apply writes_nothing);
    eapply set_password_writes; eassumption.
Qed.

(** Whatever the request, the table sees at most one checked write. *)
Lemma handle_writes (now : Z) (db : Prisma.DB) (r : App.Request) :
  writes now db (App.handle now db r).
Proof.
  destruct r; simpl.
  - apply signup_writes.
  - apply verify_writes.
  - apply completeProfile_writes.
  - apply updateProfile_writes.
  - apply deletePicture_writes.
  - apply changePassword_writes.
Qed.

End Writes.

(* ===================================================================== *)
(** ** Invariants of the reachable tables *)
(* ===================================================================== *)

Lemma create_checked (now : Z) (db db' : Prisma.DB) (d : Prisma.CreateData)
  (u : Prisma.User) :
  Prisma.create now db d = Ret (u, db') ->
  Prisma.email_taken db (Prisma.c_email d) = false
  /\ Prisma.googleId_taken db None (Prisma.c_googleId d) = false.
Proof.
  unfold Prisma.create. intros H.
  destruct (Prisma.email_taken db (Prisma.c_email d)); [discriminate|].
  destruct (Prisma.googleId_taken db None (Prisma.c_googleId d));
    [discriminate|]. split; reflexivity.
Qed.

Lemma update_checked (now : Z) (db db' : Prisma.DB) (i : nat)
  (d : Prisma.UpdateData) (u' : Prisma.User) (g : string) :
  Prisma.update now db i d = Ret (u', db') ->
  Prisma.set_googleId d = Some g ->
  Prisma.googleId_taken db (Some i) (Some g) = false.
Proof.
  unfold Prisma.update. intros H Hg. rewrite Hg in H.
  destruct (Prisma.findUnique_id db i); [|discriminate].
  destruct (Prisma.googleId_taken db (Some i) (Some g)); [discriminate|].
  reflexivity.
Qed.

(** The table around the row an id selects. *)
Lemma replace_row_split (db : Prisma.DB) (i : nat) (v u' : Prisma.User) :
  Prisma.findUnique_id db i = Some v ->
  exists pre post,
    db = (pre ++ v :: post)%list
    /\ (forall w, In w pre -> Prisma.id w <> i)
    /\ Prisma.replace_row i u' db = (pre ++ u' :: post)%list.
Proof.
  unfold Prisma.findUnique_id.
  induction db as [|w rest IH]; simpl; intros Hf; [discriminate|].
  destruct (Nat.eqb_spec (Prisma.id w) i) as [Heq|Hneq].
  - inversion Hf; subst. exists [], rest. simpl. repeat split.
    intros w0 [].
  - destruct (IH Hf) as [pre [post [Hdb [Hpre Hrep]]]].
    exists (w :: pre), post. simpl. rewrite Hrep, <- Hdb.
    repeat split. intros w0 [<-|Hin]; [exact Hneq | exact (Hpre w0 Hin)].
Qed.

Lemma existsb_false_In {A : Type} (f : A -> bool) (xs : list A) (x : A) :
  existsb f xs = false -> In x xs -> f x = false.
Proof.
  intros Hf Hin. destruct (f x) eqn:E; [|reflexivity].
  assert (Ht : existsb f xs = true) by (apply existsb_exists; eauto).
  congruence.
Qed.

Lemma google_ids_app (xs ys : Prisma.DB) :
  google_ids (xs ++ ys)%list = (google_ids xs ++ google_ids ys)%list.
Proof. unfold google_ids. apply flat_map_app. Qed.

Lemma google_ids_In (db : Prisma.DB) (g : string) :
  In g (google_ids db) <-> exists u, In u db /\ Prisma.googleId u = Some g.
Proof.
  unfold google_ids. rewrite in_flat_map. split.
  - intros [u [Hin Hg]]. exists u. split; [exact Hin|].
    destruct (Prisma.googleId u) as [x|]; simpl in Hg; [|contradiction].
    destruct Hg as [->|[]]. reflexivity.
  - intros [u [Hin Hg]]. exists u. split; [exact Hin|].
    rewrite Hg. left. reflexivity.
Qed.

Lemma opt_string_eqb_refl (g : string) :
  Prisma.opt_string_eqb (Some g) (Some g) = true.
Proof. simpl. apply String.eqb_refl. Qed.

Lemma NoDup_insert_middle {A : Type} (xs ys : list A) (x : A) :
  NoDup (xs ++ ys)%list -> ~ In x xs -> ~ In x ys ->
  NoDup (xs ++ x :: ys)%list.
Proof.
  intros Hnd Hx Hy. induction xs as [|a xs IH]; simpl in *.
  - constructor; assumption.
  - inversion Hnd as [|b bs Hnotin Hrest]; subst. constructor.
    + rewrite in_app_iff in *. simpl. intros [Ha|[Ha|Ha]]; subst; tauto.
    + apply IH; [exact Hrest | tauto].
Qed.

Lemma create_keeps_keys (now : Z) (db db' : Prisma.DB)
  (d : Prisma.CreateData) (u : Prisma.User) :
  Prisma.create now db d = Ret (u, db') -> keys_unique db -> keys_unique db'.
Proof.
  intros Hc [Hids [Hemails Hgoogle]].
  destruct (create_checked now db db' d u Hc) as [Hfree Hgfree].
  destruct (create_inv now db db' d u Hc) as [-> ->].
  unfold keys_unique. rewrite !map_app, google_ids_app. simpl.
  split; [|split].
  - rewrite <- (app_nil_r [Prisma.fresh_id db]).
    apply NoDup_insert_middle; rewrite ?app_nil_r; [exact Hids | | intros []].
    intros Hin. apply in_map_iff in Hin. destruct Hin as [v [Hv Hin]].
    apply fresh_id_above in Hin. lia.
  - rewrite <- (app_nil_r [Prisma.c_email d]).
    apply NoDup_insert_middle; rewrite ?app_nil_r; [exact Hemails | | intros []].
    intros Hin. apply in_map_iff in Hin. destruct Hin as [v [Hv Hin]].
    pose proof (existsb_false_In _ _ v Hfree Hin) as Hf. simpl in Hf.
    rewrite Hv, String.eqb_refl in Hf. discriminate.
  - destruct (Prisma.c_googleId d) as [g|]; simpl;
      [|rewrite app_nil_r; exact Hgoogle].
    rewrite <- (app_nil_r [g]).
    apply NoDup_insert_middle; rewrite ?app_nil_r; [exact Hgoogle | | intros []].
    intros Hin. apply google_ids_In in Hin. destruct Hin as [v [Hin Hv]].
    pose proof (existsb_false_In _ _ v Hgfree Hin) as Hf. simpl in Hf.
    rewrite Hv, opt_string_eqb_refl in Hf. discriminate.
Qed.

Lemma update_keeps_keys (now : Z) (db db' : Prisma.DB) (i : nat)
  (d : Prisma.UpdateData) (u' : Prisma.User) :
  Prisma.update now db i d = Ret (u', db') -> keys_unique db -> keys_unique db'.
Proof.
  intros Hu [Hids [Hemails Hgoogle]].
  destruct (update_inv now db db' i d u' Hu) as [v [Hfind [Hrow Hdb]]].
  destruct (replace_row_split db i v u' Hfind) as [pre [post [Hsplit [Hpre Hrep]]]].
  pose proof (proj2 (findUnique_id_sound db i v Hfind)) as Hidv.
  rewrite Hdb, Hrep. unfold keys_unique.
  rewrite !map_app, google_ids_app. simpl.
  assert (Hid' : Prisma.id u' = Prisma.id v) by (subst u'; reflexivity).
  assert (Hem' : Prisma.email u' = Prisma.email v) by (subst u'; reflexivity).
  rewrite Hid', Hem'.
  rewrite Hsplit, !map_app, google_ids_app in *. simpl in *.
  split; [exact Hids|]. split; [exact Hemails|].
  destruct (Prisma.set_googleId d) as [g|] eqn:Eg.
  - assert (Hg' : Prisma.googleId u' = Some g)
      by (subst u'; simpl; rewrite Eg; reflexivity).
    rewrite Hg'. simpl.
    pose proof (update_checked now _ db' i d u' g Hu Eg) as Hfree.
    assert (Hrest : NoDup (google_ids pre ++ google_ids post)%list).
    { destruct (Prisma.googleId v); simpl in Hgoogle;
        [apply NoDup_remove_1 in Hgoogle|]; exact Hgoogle. }
    assert (Hother : forall w, In w (pre ++ post)%list ->
                               Prisma.googleId w <> Some g).
    { intros w Hw Hwg.
      assert (Hin : In w (pre ++ v :: post)%list)
        by (rewrite in_app_iff in *; simpl; tauto).
      pose proof (existsb_false_In _ _ w Hfree Hin) as Hf. simpl in Hf.
      rewrite Hwg, opt_string_eqb_refl in Hf. simpl in Hf.
      apply negb_false_iff, Nat.eqb_eq in Hf.
      rewrite in_app_iff in Hw. destruct Hw as [Hw|Hw];
        [exact (Hpre w Hw Hf)|].
      apply NoDup_remove_2 in Hids. apply Hids.
      rewrite in_app_iff. right. rewrite Hidv, <- Hf.
      apply in_map. exact Hw. }
    apply NoDup_insert_middle; [exact Hrest | |];
      intros Hin; apply google_ids_In in Hin;
      destruct Hin as [w [Hw Hwg]]; apply (Hother w); try exact Hwg;
      rewrite in_app_iff; tauto.
  - assert (Hg' : Prisma.googleId u' = Prisma.googleId v)
      by (subst u'; simpl; rewrite Eg; reflexivity).
    rewrite Hg'. exact Hgoogle.
Qed.

Lemma writes_keeps_keys (now : Z) (db db' : Prisma.DB) :
  writes now db db' -> keys_unique db -> keys_unique db'.
Proof.
  intros [|d u db1 Hc _|i d u' db1 Hu _] Hk;
    eauto using create_keeps_keys, update_keeps_keys.
Qed.

Lemma apply_update_data_ok (now : Z) (d : Prisma.UpdateData) (u : Prisma.User) :
  updated_ok d ->
  age_ok (Prisma.age u) /\ gender_ok (Prisma.gender u) ->
  age_ok (Prisma.age (Prisma.apply_update now d u))
  /\ gender_ok (Prisma.gender (Prisma.apply_update now d u)).
Proof.
  intros [Ha [Hg _]] [Hua Hug]. simpl.
  destruct (Prisma.set_age d), (Prisma.set_gender d); auto.
Qed.

Lemma apply_update_provenance_ok (now : Z) (d : Prisma.UpdateData)
  (u : Prisma.User) :
  updated_ok d -> provenance_ok u ->
  provenance_ok (Prisma.apply_update now d u).
Proof.
  intros [_ [_ Hp]] Hu. unfold provenance_ok in *. simpl.
  destruct Hp as [[Hprov Hgid] | [Hprov Hgid]]; rewrite Hprov, ?Hgid; simpl.
  - destruct Hu as [[H1 [H2 H3]] | [H1 H2]]; [left | right].
    + repeat split; try assumption.
      destruct (Prisma.set_password d); [reflexivity | exact H2].
    + split; assumption.
  - right. split; [reflexivity|].
    destruct (Prisma.set_googleId d); [reflexivity | discriminate].
Qed.

(** A checked write keeps a property of rows that checked data keeps. *)
Lemma writes_keeps_rows (P : Prisma.User -> Prop) (now : Z)
  (db db' : Prisma.DB) :
  (forall d u db1, Prisma.create now db d = Ret (u, db1) -> created_ok d -> P u) ->
  (forall d u, updated_ok d -> P u -> P (Prisma.apply_update now d u)) ->
  writes now db db' -> Forall P db -> Forall P db'.
Proof.
  intros Hcreate Hupdate [|d u db1 Hc Hok|i d u' db1 Hu Hok] Hall.
  - exact Hall.
  - destruct (create_inv now db db1 d u Hc) as [Hdb _].
    rewrite Hdb. apply Forall_app. split; [exact Hall|].
    constructor; [|constructor]. exact (Hcreate d u db1 Hc Hok).
  - destruct (update_inv now db db1 i d u' Hu) as [v [Hfind [Hrow Hdb]]].
    rewrite Hdb. apply Forall_replace_row; [exact Hall|].
    rewrite Hrow. apply Hupdate; [exact Hok|].
    rewrite Forall_forall in Hall. apply Hall.
    exact (proj1 (findUnique_id_sound db i v Hfind)).
Qed.

Section Reachable.

Context {R : Runtime}.

Lemma run_invariant (Inv : Prisma.DB -> Prop) :
  (forall now db r, Inv db -> Inv (App.handle now db r)) ->
  forall trace db, Inv db -> Inv (App.run trace db).
Proof.
  intros Hstep trace. induction trace as [|[now r] rest IH]; simpl; intros db Hdb;
    [exact Hdb|].
  apply IH. apply Hstep. exact Hdb.
Qed.

Lemma run_keys_unique (trace : list (Z * App.Request)) :
  keys_unique (App.run trace []).
Proof.
  apply (run_invariant keys_unique).
  - intros now db r Hk.
    exact (writes_keeps_keys now db _ (handle_writes now db r) Hk).
  - repeat split; constructor.
Qed.

Lemma run_data_valid (trace : list (Z * App.Request)) :
  Forall (fun u => age_ok (Prisma.age u) /\ gender_ok (Prisma.gender u))
         (App.run trace []).
Proof.
  apply (run_invariant
           (Forall (fun u => age_ok (Prisma.age u) /\ gender_ok (Prisma.gender u)))).
  - intros now db r. apply (writes_keeps_rows _ now db); [| |apply handle_writes].
    + intros d u db1 Hc [Ha [Hg _]].
      destruct (create_inv now db db1 d u Hc) as [_ ->]. simpl. auto.
    + intros d u. apply apply_update_data_ok.
  - constructor.
Qed.

Lemma run_snoc (trace : list (Z * App.Request)) (now : Z) (r : App.Request)
  (db : Prisma.DB) :
  App.run (trace ++ [(now, r)])%list db = App.handle now (App.run trace db) r.
Proof.
  revert db. induction trace as [|[t q] rest IH]; intros db; simpl;
    [reflexivity | apply IH].
Qed.

(** X1. In every table the requests can produce from the empty one, no
    two rows share an id, no two rows share an email as stored, and no
    two rows share a Google id. *)
Theorem reachable_keys_unique (trace : list (Z * App.Request)) :
  NoDup (map Prisma.id (App.run trace []))
  /\ NoDup (map Prisma.email (App.run trace []))
  /\ NoDup (google_ids (App.run trace [])).
Proof. exact (run_keys_unique trace). Qed.

(** X2. In every reachable table a stored age is an integer from 13 to
    120 and a stored gender is one of the four lower-case values. *)
Theorem reachable_profile_data_valid (trace : list (Z * App.Request)) :
  Forall (fun u => age_ok (Prisma.age u) /\ gender_ok (Prisma.gender u))
         (App.run trace []).
Proof. exact (run_data_valid trace). Qed.

(** X3. In every reachable table a row with provider "credentials" has a
    secret hash and no Google id, and every other row has provider
    "google" and a Google id. *)
Theorem reachable_provenance (trace : list (Z * App.Request)) :
  Forall provenance_ok (App.run trace []).
Proof.
  apply (run_invariant (Forall provenance_ok)).
  - intros now db r. apply (writes_keeps_rows _ now db); [| |apply handle_writes].
    + intros d u db1 Hc [_ [_ Hp]].
      destruct (create_inv now db db1 d u Hc) as [_ ->].
      unfold provenance_ok. simpl. exact Hp.
    + intros d u. apply apply_update_provenance_ok.
  - constructor.
Qed.

Lemma writes_append_only (now : Z) (db db' : Prisma.DB) :
  writes now db db' ->
  exists new,
    map (fun u => (Prisma.id u, Prisma.email u, Prisma.createdAt u)) db'
    = (map (fun u => (Prisma.id u, Prisma.email u, Prisma.createdAt u)) db
       ++ new)%list
    /\ (List.length new <= 1)%nat.
Proof.
  intros [|d u db1 Hc _|i d u' db1 Hu _].
  - exists []. rewrite app_nil_r. split; [reflexivity | simpl; lia].
  - destruct (create_inv now db db1 d u Hc) as [-> _].
    eexists. rewrite map_app. split; [reflexivity | simpl; lia].
  - destruct (update_inv now db db1 i d u' Hu) as [v [Hfind [Hrow Hdb]]].
    destruct (replace_row_split db i v u' Hfind)
      as [pre [post [Hsplit [_ Hrep]]]].
    exists []. rewrite app_nil_r, Hdb, Hrep, Hsplit, !map_app. simpl.
    split; [|lia]. rewrite Hrow. reflexivity.
Qed.

(** X4. No sequence of requests deletes a row or changes the id, the
    email or the creation time of a row: the table only grows at its
    end, by at most one row per request. *)
Theorem run_append_only (trace : list (Z * App.Request)) (db : Prisma.DB) :
  exists new,
    map (fun u => (Prisma.id u, Prisma.email u, Prisma.createdAt u))
        (App.run trace db)
    = (map (fun u => (Prisma.id u, Prisma.email u, Prisma.createdAt u)) db
       ++ new)%list
    /\ (List.length new <= List.length trace)%nat.
Proof.
  revert db. induction trace as [|[now r] rest IH]; intros db; simpl.
  - exists []. rewrite app_nil_r. split; [reflexivity | simpl; lia].
  - destruct (writes_append_only now db _ (handle_writes now db r))
      as [new1 [H1 L1]].
    destruct (IH (App.handle now db r)) as [new2 [H2 L2]].
    exists (new1 ++ new2)%list. rewrite H2, H1, <- app_assoc.
    split; [reflexivity|]. rewrite length_app. lia.
Qed.

End Reachable.

(* ===================================================================== *)
(** ** Signup, then login and GET /me *)
(* ===================================================================== *)

Section SignupFlow.

Context {R : Runtime}.

(** What a signup that answers 201 was given, stored and returned. *)
Lemma signup_created_row (now : Z) (db : Prisma.DB) (req : Auth.SignupRequest) :
  status (fst (Auth.signup now db req)) = 201%nat ->
  exists e p u,
    Auth.su_email req = Js.JStr e
    /\ Auth.su_password req = Js.JStr p
    /\ (6 <= String.length p)%nat
    /\ Auth.isValidEmail (Js.JStr e) = true
    /\ Prisma.findUnique_email db (Js.toLowerCase e) = None
    /\ Prisma.id u = Prisma.fresh_id db
    /\ Prisma.email u = Js.toLowerCase e
    /\ Prisma.password u = Some (bcrypt_hash p)
    /\ Auth.signup now db req
       = (mkResponse 201
            (UserBody (Some "User created successfully")
               (Prisma.select Auth.signup_select u)
               (Some (jwt_sign (Prisma.id u)))),
          (db ++ [u])%list).
Proof.
  unfold Auth.signup, try_catch. intros Hok.
  destruct (Auth.signup_try now db req) as [[r db']|] eqn:E;
    [|discriminate Hok].
  cbn [fst] in Hok. unfold Auth.signup_try in E.
  repeat step_exn E; try (inversion E; subst; discriminate Hok).
  unfold Auth.signup_create in E.
  repeat step_exn E; try (inversion E; subst; discriminate Hok).
  inversion E; subst; clear E.
  match goal with
  | Hc : Prisma.create _ _ _ = Ret _ |- _ =>
      apply create_inv in Hc; destruct Hc as [Hdb Hrow]
  end.
  destruct (Auth.su_email req) as [| |b|n|e] eqn:Ee; try discriminate.
  destruct (Auth.su_password req) as [| |b|n|p] eqn:Ep; try discriminate.
  match goal with
  | Hl : toLowerCase_of (Js.JStr e) = Ret _ |- _ =>
      simpl in Hl; inversion Hl; subst; clear Hl
  end.
  match goal with
  | Hh : hash_of (Js.JStr p) = Ret _ |- _ =>
      simpl in Hh; inversion Hh; subst; clear Hh
  end.
  exists e, p. eexists.
  repeat match goal with
         | |- _ /\ _ => split
         end.
  all: revgoals.
  all: try reflexivity; try assumption.
  - match goal with
    | Hv : negb (Auth.isValidEmail (Js.JStr e)) = false |- _ =>
        apply negb_false_iff in Hv; exact Hv
    end.
  - match goal with
    | Hl : length_lt (Js.JStr p) 6 = false |- _ =>
        unfold length_lt in Hl; simpl in Hl; apply Nat.ltb_ge in Hl; exact Hl
    end.
Qed.

Lemma signup_user_body (now : Z) (db : Prisma.DB) (req : Auth.SignupRequest)
  (m : option string) (v : Prisma.View) (t : option string) :
  body (fst (Auth.signup now db req)) = UserBody m v t ->
  status (fst (Auth.signup now db req)) = 201%nat.
Proof.
  unfold Auth.signup, try_catch.
  destruct (Auth.signup_try now db req) as [[r db']|] eqn:E;
    cbn [fst]; [|discriminate].
  intros Hb. unfold Auth.signup_try in E.
  repeat step_exn E; try (inversion E; subst; discriminate Hb).
  unfold Auth.signup_create in E.
  repeat step_exn E; try (inversion E; subst; discriminate Hb).
  inversion E; subst. reflexivity.
Qed.


(** X6. GET /me with the token a signup returned answers 200 with the
    very user object the signup returned, provided the token verifies
    to the id it was signed for. *)
Theorem signup_then_me (now : Z) (db : Prisma.DB)
  (req : Auth.SignupRequest) (header : string) (m : option string)
  (v : Prisma.View) (token : string)
  (Hbody : body (fst (Auth.signup now db req)) = UserBody m v (Some token))
  (Hheader : Auth.bearer (Some header) = Some token)
  (Htoken : token <> "")
  (Hjwt : forall i, jwt_verify (jwt_sign i) = Some i) :
  Auth.me (snd (Auth.signup now db req)) (Some header)
  = mkResponse 200 (UserBody None v None).
Proof.
  pose proof (signup_user_body now db req m v (Some token) Hbody) as Hok.
  destruct (signup_created_row now db req Hok)
    as [e [p [u [_ [_ [_ [_ [_ [Hid [_ [_ Hrun]]]]]]]]]]].
  rewrite Hrun in *. cbn [fst snd body] in *.
  inversion Hbody; subst. unfold Auth.me. rewrite Hheader.
  destruct (String.eqb_spec (jwt_sign (Prisma.id u)) ""); [contradiction|].
  rewrite Hjwt, Hid.
  unfold Prisma.findUnique_id in *.
  rewrite (find_app_none _ _ _ (findUnique_id_fresh db)). simpl.
  rewrite Hid, Nat.eqb_refl. reflexivity.
Qed.

End SignupFlow.

(* ===================================================================== *)
(** ** Tokens, lookups and what the read routes return *)
(* ===================================================================== *)

Section Reads.

Context {R : Runtime}.

Lemma split_no_separator (sep : ascii) (t : string) :
  all_chars (fun c => negb (Ascii.eqb c sep)) t = true ->
  Js.split sep t = [t].
Proof.
  induction t as [|c t IH]; simpl; intros H; [reflexivity|].
  apply andb_true_iff in H. destruct H as [Hc Ht].
  apply negb_true_iff in Hc. rewrite Hc, (IH Ht). reflexivity.
Qed.

Lemma split_first_word (sep : ascii) (w rest : string) :
  all_chars (fun c => negb (Ascii.eqb c sep)) w = true ->
  Js.split sep (w ++ String sep rest) = w :: Js.split sep rest.
Proof.
  induction w as [|c w IH]; simpl; intros H.
  - rewrite Ascii.eqb_refl. reflexivity.
  - apply andb_true_iff in H. destruct H as [Hc Hw].
    apply negb_true_iff in Hc. rewrite Hc, (IH Hw). reflexivity.
Qed.

(** X7. The token of a request is the second space-separated word of
    the Authorization header, whatever the first word is: for a scheme
    and a token without spaces, the header "<scheme> <token>" yields
    the token; a non-empty header without a space yields none. *)
Theorem bearer_second_word (scheme token : string)
  (Hscheme : all_chars (fun c => negb (Ascii.eqb c " ")) scheme = true)
  (Htoken : all_chars (fun c => negb (Ascii.eqb c " ")) token = true) :
  Auth.bearer (Some (scheme ++ String " " token)) = Some token
  /\ (scheme <> "" -> Auth.bearer (Some scheme) = None).
Proof.
  unfold Auth.bearer. split.
  - destruct (String.eqb_spec (scheme ++ String " " token) "") as [He|_].
    + destruct scheme; discriminate He.
    + rewrite (split_first_word " " scheme token Hscheme),
        (split_no_separator " " token Htoken). reflexivity.
  - intros Hne. destruct (String.eqb_spec scheme ""); [contradiction|].
    rewrite (split_no_separator " " scheme Hscheme). reflexivity.
Qed.


(** X9. Of the routes that return user objects, only GET /profile
    returns the [password] key: the objects of GET /me, GET /:userId,
    GET / (the list), GET /analytics/recent and of the redirect of GET
    /google/callback do not have it. *)
Theorem reads_hide_password (db : Prisma.DB) (authorization : option string)
  (userId : nat) :
  match body (Auth.me db authorization) with
  | UserBody _ v _ => Prisma.v_password v = None
  | _ => True
  end
  /\ match body (UserRoutes.getUserById db userId) with
     | UserBody _ v _ => Prisma.v_password v = None
     | _ => True
     end
  /\ Forall (fun v => Prisma.v_password v = None) (UserRoutes.listUsers db)
  /\ Forall (fun v => Prisma.v_password v = None) (UserRoutes.analyticsRecent db)
  /\ match Auth.googleCallback db userId with
     | Auth.RedirectWith _ _ v => Prisma.v_password v = None
     | Auth.RedirectSignin _ => True
     end.
Proof.
  split; [|split; [|split; [|split]]].
  - unfold Auth.me.
    destruct (Auth.bearer authorization) as [token|]; simpl; auto.
    destruct (token =? "")%string; simpl; auto.
    destruct (jwt_verify token) as [i|]; simpl; auto.
    destruct (Prisma.findUnique_id db i); simpl; auto.
  - unfold UserRoutes.getUserById.
    destruct (Prisma.findUnique_id db userId); simpl; auto.
  - unfold UserRoutes.listUsers. apply Forall_map.
    apply Forall_forall. intros u _. reflexivity.
  - unfold UserRoutes.analyticsRecent. apply Forall_map.
    apply Forall_forall. intros u _. reflexivity.
  - unfold Auth.googleCallback.
    destruct (Prisma.findUnique_id db userId) as [u|]; simpl; auto.
    destruct (negb (Auth.truthy_int (Prisma.age u))
              || negb (Js.truthy_str (Prisma.gender u))
              || negb (Prisma.isProfileComplete u)); reflexivity.
Qed.

(** X10. PUT /profile by an authenticated caller with an age that is
    given and not within 13 to 120 is answered 400 and writes nothing;
    an absent age passes this check. *)
Theorem updateProfile_age_out_of_range (now : Z) (db : Prisma.DB) (uid : nat)
  (req : UserRoutes.UpdateProfileRequest)
  (Hgiven : Js.truthy (UserRoutes.up_age req) = true)
  (Hage : isValidAge (Number (UserRoutes.up_age req)) = false) :
  status (fst (UserRoutes.updateProfile now db (Some uid) req)) = 400%nat
  /\ failure (fst (UserRoutes.updateProfile now db (Some uid) req))
     = Some ValidationError
  /\ snd (UserRoutes.updateProfile now db (Some uid) req) = db.
Proof.
  unfold UserRoutes.updateProfile, UserRoutes.updateProfile_try, try_catch.
  rewrite Hgiven, Hage.
  destruct (Js.truthy (UserRoutes.up_name req)); simpl; auto.
Qed.

End Reads.

(* ===================================================================== *)
(** ** What a successful write did *)
(* ===================================================================== *)

Section Effects.

Context {R : Runtime}.





End Effects.

Section MoreEffects.

Context {R : Runtime}.

Lemma set_password_inv (now : Z) (db db' : Prisma.DB) (uid : nat)
  (new : Js.jsval) (message : string) (r : Response) :
  UserRoutes.set_password now db uid new message = Ret (r, db') ->
  exists p u,
    new = Js.JStr p
    /\ Prisma.findUnique_id db uid = Some u
    /\ db' = Prisma.replace_row uid
               (Prisma.apply_update now
                  (Prisma.mkUpdate None (Some (bcrypt_hash p)) None None None
                     None None None) u) db.
Proof.
  unfold UserRoutes.set_password. intros E.
  repeat step_exn E. inversion E; subst; clear E.
  destruct new as [| |b|n|p]; try discriminate.
  match goal with
  | Hh : hash_of (Js.JStr p) = Ret _ |- _ =>
      simpl in Hh; inversion Hh; subst; clear Hh
  end.
  match goal with
  | Hu : Prisma.update _ _ _ _ = Ret ?q |- _ =>
      destruct q as [u' db1]; apply update_inv in Hu;
      destruct Hu as [u [Hf [Hrow Hdb]]]
  end.
  exists p, u. subst. repeat split; assumption.
Qed.

(** X13. A POST /change-password that answers 200 has stored the hash of
    a new secret of at least six characters, and it does so only for a
    Google account that had no secret hash or for a caller whose current
    secret bcrypt accepted against the stored hash. *)
Theorem changePassword_success (now : Z) (db db' : Prisma.DB)
  (user : option nat) (req : UserRoutes.ChangePasswordRequest) (r : Response)
  (Hrun : UserRoutes.changePassword now db user req = (r, db'))
  (Hok : status r = 200%nat) :
  exists uid u new,
    user = Some uid
    /\ Prisma.findUnique_id db uid = Some u
    /\ UserRoutes.newPassword req = Js.JStr new
    /\ (6 <= String.length new)%nat
    /\ db' = Prisma.replace_row uid
               (Prisma.apply_update now
                  (Prisma.mkUpdate None (Some (bcrypt_hash new)) None None
                     None None None None) u) db
    /\ ((Prisma.provider u = "google" /\ has_credential u = false)
        \/ (exists current h,
               UserRoutes.currentPassword req = Js.JStr current
               /\ Prisma.password u = Some h
               /\ bcrypt_compare current h = true)).
Proof.
  unfold UserRoutes.changePassword, try_catch in Hrun.
  destruct user as [uid|]; [|inversion Hrun; subst; discriminate Hok].
  destruct (UserRoutes.changePassword_try now db uid req) as [[r0 db0]|] eqn:E;
    inversion Hrun; subst; clear Hrun; [|discriminate Hok].
  unfold UserRoutes.changePassword_try in E.
  repeat (first [ match type of E with
                  | UserRoutes.set_password _ _ _ _ _ = Ret _ => fail 2
                  end
                | step_exn E ]);
    try (inversion E; subst; discriminate Hok).
  all: destruct (set_password_inv _ _ _ _ _ _ _ E) as [p [w [Hnew [Hf Hdb]]]];
    match goal with
    | Hg : Prisma.findUnique_id ?d ?i = Some ?v,
      Hh : Prisma.findUnique_id ?d ?i = Some _ |- _ =>
        rewrite Hh in Hg; inversion Hg; subst; clear Hg
    end;
    do 3 eexists;
    repeat match goal with
           | |- _ /\ _ => split
           end.
  all: try reflexivity; try eassumption.
  all: try match goal with
           | Hn : UserRoutes.newPassword _ = Js.JStr ?p,
             Hl : length_lt (UserRoutes.newPassword _) 6 = false
             |- (6 <= String.length ?p)%nat =>
               rewrite Hn in Hl; unfold length_lt in Hl; simpl in Hl;
               apply Nat.ltb_ge in Hl; exact Hl
           end.
  - left.
    match goal with
    | Hc : _ && _ = true |- _ =>
        apply andb_true_iff in Hc; destruct Hc as [Hp Hn]
    end.
    apply String.eqb_eq in Hp. apply negb_true_iff in Hn. split; assumption.
  - right.
    destruct (UserRoutes.currentPassword req) as [| |b|n|c]; try discriminate.
    match goal with
    | Hcmp : compare_of (Js.JStr c) ?h = Ret ?ok, Hn : negb ?ok = false |- _ =>
        exists c, h; simpl in Hcmp; inversion Hcmp; subst;
        apply negb_false_iff in Hn
    end.
    repeat split; assumption.
Qed.

(** X14. After a DELETE /profile/picture that answered 200, the picture
    column of the caller's row is null, and a second DELETE is answered
    "No profile picture to delete" without a write. *)
Theorem deletePicture_twice (now now' : Z) (db db' : Prisma.DB) (uid : nat)
  (r : Response)
  (Hrun : UserRoutes.deletePicture now db (Some uid) = (r, db'))
  (Hok : status r = 200%nat) :
  (exists u u', Prisma.findUnique_id db uid = Some u
                /\ has_picture u = true
                /\ Prisma.findUnique_id db' uid = Some u'
                /\ Prisma.profilePicture u' = None)
  /\ UserRoutes.deletePicture now' db' (Some uid)
     = (reject 400 "No profile picture to delete", db').
Proof.
  unfold UserRoutes.deletePicture, try_catch in Hrun.
  destruct (UserRoutes.deletePicture_try now db uid) as [[r0 db0]|] eqn:E;
    inversion Hrun; subst; clear Hrun; [|discriminate Hok].
  unfold UserRoutes.deletePicture_try in E.
  repeat step_exn E; try (inversion E; subst; discriminate Hok).
  inversion E; subst; clear E.
  match goal with
  | Hu : Prisma.update _ _ _ _ = Ret _ |- _ =>
      apply update_inv in Hu; destruct Hu as [w [Hf [Hrow Hdb]]]
  end.
  assert (Hf' : Prisma.findUnique_id db' uid = Some
                  (Prisma.apply_update now
                     (Prisma.mkUpdate None None None None (Some None) None
                        None None) w)).
  { rewrite Hdb, Hrow. apply (findUnique_id_replace db uid w); [exact Hf|].
    simpl. exact (proj2 (findUnique_id_sound db uid w Hf)). }
  split.
  - exists w. eexists. split; [exact Hf|]. split.
    + match goal with
      | Hn : negb _ = false |- _ =>
          apply negb_false_iff in Hn; rewrite Hf in Hn; exact Hn
      end.
    + split; [exact Hf' | reflexivity].
  - unfold UserRoutes.deletePicture, UserRoutes.deletePicture_try, try_catch.
    rewrite Hf'. reflexivity.
Qed.

End MoreEffects.

(* ===================================================================== *)
(** ** Google login *)
(* ===================================================================== *)

Section GoogleFlow.

Context {R : Runtime}.

(** The account a Google login returns is a row of the new table, and
    its completion flag was computed from its own columns. *)
Lemma verify_done (now : Z) (db db' : Prisma.DB) (profile : Passport.Profile)
  (u : Prisma.User) :
  NoDup (map Prisma.id db) ->
  Passport.verify now db profile = (Passport.DoneUser u, db') ->
  Prisma.findUnique_id db' (Prisma.id u) = Some u /\ profile_consistent u.
Proof.
  intros Hids Hrun. unfold Passport.verify, try_catch in Hrun.
  destruct (Passport.verify_try now db profile) as [[d0 db0]|] eqn:E;
    inversion Hrun; subst; clear Hrun.
  unfold Passport.verify_try in E.
  repeat step_exn E; inversion E; subst; clear E.
  - match goal with
    | Hu : Prisma.update _ _ _ _ = Ret _ |- _ =>
        apply update_inv in Hu; destruct Hu as [w [Hw [Hrow Hdb]]]
    end.
    match goal with
    | Hf : Prisma.findUnique_email _ _ = Some _ |- _ =>
        apply findUnique_email_sound in Hf; destruct Hf as [Hin _]
    end.
    rewrite (findUnique_id_of_row db _ Hids Hin) in Hw.
    inversion Hw; subst w. split.
    + rewrite Hdb, Hrow. cbn [Prisma.id Prisma.apply_update].
      eapply findUnique_id_replace;
        [apply (findUnique_id_of_row db _ Hids Hin) | reflexivity].
    + rewrite Hrow. unfold profile_consistent. simpl.
      match goal with
      | |- context [Prisma.age ?x] =>
          destruct (Prisma.age x), (Prisma.gender x); reflexivity
      end.
  - match goal with
    | Hc : Prisma.create _ _ _ = Ret _ |- _ =>
        apply create_inv in Hc; destruct Hc as [Hdb Hrow]
    end.
    subst. split; [|reflexivity]. cbn [Prisma.id].
    unfold Prisma.findUnique_id.
    rewrite (find_app_none _ _ _ (findUnique_id_fresh db)). simpl.
    rewrite Nat.eqb_refl. reflexivity.
Qed.

(** X15. After a Google login on a reachable table, GET
    /google/callback redirects the returned account to the profile page
    exactly when its age and gender are both stored, and to the
    complete-profile page otherwise, with a token signed for its id. *)
Theorem googleCallback_after_verify (trace : list (Z * App.Request))
  (now : Z) (profile : Passport.Profile) (u : Prisma.User) (db' : Prisma.DB)
  (Hdone : Passport.verify now (App.run trace []) profile
           = (Passport.DoneUser u, db')) :
  Auth.googleCallback db' (Prisma.id u)
  = Auth.RedirectWith
      (if is_set (Prisma.age u) && is_set (Prisma.gender u)
       then "profile" else "complete-profile")
      (jwt_sign (Prisma.id u))
      (Prisma.select Auth.signup_select u).
Proof.
  destruct (verify_done now _ db' profile u
              (proj1 (run_keys_unique trace)) Hdone) as [Hfind Hflag].
  assert (Hvalid : age_ok (Prisma.age u) /\ gender_ok (Prisma.gender u)).
  { pose proof (run_data_valid (trace ++ [(now, App.GoogleLogin profile)])) as H.
    rewrite run_snoc in H. simpl in H. rewrite Hdone in H. simpl in H.
    rewrite Forall_forall in H. apply H.
    exact (proj1 (findUnique_id_sound db' _ u Hfind)). }
  destruct Hvalid as [Hage Hgender].
  unfold Auth.googleCallback. rewrite Hfind, Hflag.
  unfold age_ok, gender_ok in *.
  destruct (Prisma.age u) as [z|] eqn:Ea; simpl; [|reflexivity].
  destruct (Z.eqb_spec z 0) as [Hz|_]; [lia|]. simpl.
  destruct (Prisma.gender u) as [g|] eqn:Eg; simpl; [|reflexivity].
  destruct (String.eqb_spec g "") as [Hg|_]; [|reflexivity].
  subst g. simpl in Hgender. intuition discriminate.
Qed.

(** X16. A Google login that finds a row under the profile's email and
    succeeds rewrites that row only: id, email, secret hash, age, gender
    and creation time are kept; provider becomes "google", the Google id
    and the display name are the profile's; a picture already set is
    kept; the completion flag is recomputed from age and gender. *)
Theorem verify_existing_account (now : Z) (db db' : Prisma.DB)
  (profile : Passport.Profile) (e : string) (es : list string)
  (u u' : Prisma.User)
  (Hemails : Passport.emails profile = Some (e :: es))
  (He : e <> "")
  (Hfound : Prisma.findUnique_email db e = Some u)
  (Hrow : Prisma.findUnique_id db (Prisma.id u) = Some u)
  (Hdone : Passport.verify now db profile = (Passport.DoneUser u', db')) :
  db' = Prisma.replace_row (Prisma.id u) u' db
  /\ Prisma.id u' = Prisma.id u
  /\ Prisma.email u' = Prisma.email u
  /\ Prisma.password u' = Prisma.password u
  /\ Prisma.age u' = Prisma.age u
  /\ Prisma.gender u' = Prisma.gender u
  /\ Prisma.createdAt u' = Prisma.createdAt u
  /\ Prisma.provider u' = "google"
  /\ Prisma.googleId u' = Some (Passport.p_id profile)
  /\ Prisma.name u' = Passport.displayName profile
  /\ (has_picture u = true ->
      Prisma.profilePicture u' = Prisma.profilePicture u)
  /\ Prisma.isProfileComplete u'
     = is_set (Prisma.age u) && is_set (Prisma.gender u).
Proof.
  unfold Passport.verify, try_catch in Hdone.
  destruct (Passport.verify_try now db profile) as [[d0 db0]|] eqn:E;
    inversion Hdone; subst; clear Hdone.
  unfold Passport.verify_try in E. rewrite Hemails in E.
  cbn [Passport.first_value bind] in E.
  rewrite (proj2 (truthy_str_Some e) He) in E. cbn [negb] in E.
  rewrite Hfound in E.
  repeat step_exn E. inversion E; subst; clear E.
  match goal with
  | Hu : Prisma.update _ _ _ _ = Ret _ |- _ =>
      apply update_inv in Hu; destruct Hu as [w [Hw [Hrow' Hdb]]]
  end.
  rewrite Hrow in Hw. inversion Hw; subst w.
  split; [exact Hdb|]. rewrite Hrow'. simpl.
  repeat (split; [reflexivity|]).
  split.
  { destruct (String.eqb_spec (Prisma.name u) (Passport.displayName profile));
      simpl; congruence. }
  split.
  { intros Hpic. unfold has_picture in Hpic.
    match goal with
    | Hp : Passport.and_then_value _ _ = Ret _ |- _ =>
        unfold Passport.and_then_value in Hp; rewrite Hpic in Hp;
        simpl in Hp; inversion Hp; subst
    end.
    reflexivity. }
  destruct (Prisma.age u), (Prisma.gender u); reflexivity.
Qed.

End GoogleFlow.

(* ===================================================================== *)
(** ** Listings and analytics *)
(* ===================================================================== *)

Lemma insert_desc_perm (u : Prisma.User) (rows : list Prisma.User) :
  Permutation (Prisma.insert_desc u rows) (u :: rows).
Proof.
  induction rows as [|v rest IH]; simpl; [reflexivity|].
  destruct (Prisma.createdAt v <=? Prisma.createdAt u)%Z; [reflexivity|].
  rewrite IH. apply perm_swap.
Qed.

Lemma orderBy_perm (db : Prisma.DB) :
  Permutation (Prisma.orderBy_createdAt_desc db) db.
Proof.
  induction db as [|u rest IH]; simpl; [reflexivity|].
  rewrite insert_desc_perm. constructor. exact IH.
Qed.

Lemma insert_desc_sorted (u : Prisma.User) (rows : list Prisma.User) :
  StronglySorted newer rows -> StronglySorted newer (Prisma.insert_desc u rows).
Proof.
  induction rows as [|v rest IH]; simpl; intros Hs.
  - constructor; constructor.
  - inversion Hs as [|x xs Hrest Hall]; subst.
    destruct (Z.leb_spec (Prisma.createdAt v) (Prisma.createdAt u)) as [Hle|Hgt].
    + constructor; [exact Hs|]. constructor; [exact Hle|].
      rewrite Forall_forall in *. intros w Hw.
      specialize (Hall w Hw). unfold newer in *. lia.
    + constructor; [apply IH; exact Hrest|].
      rewrite Forall_forall in *. intros w Hw.
      apply (Permutation_in _ (insert_desc_perm u rest)) in Hw.
      destruct Hw as [<-|Hw]; [unfold newer; lia | exact (Hall w Hw)].
Qed.

Lemma orderBy_sorted (db : Prisma.DB) :
  StronglySorted newer (Prisma.orderBy_createdAt_desc db).
Proof.
  induction db as [|u rest IH]; simpl; [constructor|].
  apply insert_desc_sorted. exact IH.
Qed.

Lemma sorted_newest_first (rows : list Prisma.User) :
  StronglySorted newer rows -> newest_first rows.
Proof.
  intros Hs. induction Hs as [|u rest Hrest IH Hall]; intros i j x y Hij Hi Hj.
  - destruct i; discriminate.
  - destruct i as [|i], j as [|j]; simpl in *.
    + inversion Hi; inversion Hj; subst. unfold newer. lia.
    + inversion Hi; subst. rewrite Forall_forall in Hall.
      exact (Hall y (nth_error_In _ _ Hj)).
    + lia.
    + apply (IH i j x y); [lia | assumption | assumption].
Qed.

Lemma sorted_app_newer (xs ys : list Prisma.User) :
  StronglySorted newer (xs ++ ys)%list ->
  StronglySorted newer xs
  /\ forall u v, In u xs -> In v ys -> newer u v.
Proof.
  induction xs as [|x xs IH]; simpl; intros Hs.
  - split; [constructor | intros u v []].
  - inversion Hs as [|a l Hrest Hall]; subst.
    destruct (IH Hrest) as [Hxs Hcross]. split.
    + constructor; [exact Hxs|].
      rewrite Forall_forall in *. intros w Hw. apply Hall.
      rewrite in_app_iff. left. exact Hw.
    + intros u v [<-|Hu] Hv; [|exact (Hcross u v Hu Hv)].
      rewrite Forall_forall in Hall. apply Hall.
      rewrite in_app_iff. right. exact Hv.
Qed.

(** X17. GET / lists every row exactly once, newest first. *)
Theorem listUsers_newest_first (db : Prisma.DB) :
  exists rows,
    UserRoutes.listUsers db = map (Prisma.select Auth.signup_select) rows
    /\ Permutation rows db
    /\ newest_first rows.
Proof.
  exists (Prisma.orderBy_createdAt_desc db).
  split; [reflexivity|]. split; [apply orderBy_perm|].
  apply sorted_newest_first, orderBy_sorted.
Qed.

(** X18. GET /analytics/recent lists at most ten rows, all of them when
    the table has at most ten, newest first, and no row left out was
    created later than a listed one. *)
Theorem analyticsRecent_ten_newest (db : Prisma.DB) :
  exists rows rest,
    UserRoutes.analyticsRecent db = map (Prisma.select UserRoutes.recent_select) rows
    /\ Permutation (rows ++ rest)%list db
    /\ List.length rows = Nat.min 10 (List.length db)
    /\ newest_first rows
    /\ forall u v, In u rows -> In v rest -> newer u v.
Proof.
  exists (firstn 10 (Prisma.orderBy_createdAt_desc db)),
         (skipn 10 (Prisma.orderBy_createdAt_desc db)).
  pose proof (orderBy_sorted db) as Hs.
  rewrite <- (firstn_skipn 10 (Prisma.orderBy_createdAt_desc db)) in Hs.
  destruct (sorted_app_newer _ _ Hs) as [Hfirst Hcross].
  split; [reflexivity|]. split.
  { rewrite firstn_skipn. apply orderBy_perm. }
  split.
  { rewrite length_firstn, (Permutation_length (orderBy_perm db)).
    reflexivity. }
  split; [apply sorted_newest_first; exact Hfirst | exact Hcross].
Qed.

Lemma increment_labelled (key : string) (f : string -> nat)
  (labels : list string) :
  UserRoutes.increment key (map (fun k => (k, f k)) labels)
  = map (fun k => (k, (f k + if (k =? key)%string then 1 else 0)%nat)) labels.
Proof.
  unfold UserRoutes.increment. rewrite map_map. apply map_ext.
  intros k. simpl. destruct (k =? key)%string; f_equal; lia.
Qed.

Lemma countAge_fold (db : Prisma.DB) (f : string -> nat)
  (labels : list string) :
  fold_left UserRoutes.countAge db (map (fun k => (k, f k)) labels)
  = map (fun k => (k, (f k + in_range k db)%nat)) labels.
Proof.
  revert f. induction db as [|u rest IH]; intros f; simpl.
  - apply map_ext. intros k. unfold in_range. simpl.
    rewrite Nat.add_0_r. reflexivity.
  - unfold UserRoutes.countAge at 2.
    destruct (Prisma.age u) as [a|] eqn:Ea.
    + destruct (UserRoutes.ageRange a) as [key|] eqn:Er.
      * rewrite increment_labelled, IH. apply map_ext. intros k.
        unfold in_range. simpl. rewrite Ea, Er.
        rewrite (String.eqb_sym k key).
        destruct (key =? k)%string; simpl; f_equal;
          rewrite ?Nat.add_0_r; try reflexivity;
          rewrite <- Nat.add_assoc; reflexivity.
      * rewrite IH. apply map_ext. intros k.
        unfold in_range. simpl. rewrite Ea, Er. reflexivity.
    + rewrite IH. apply map_ext. intros k.
      unfold in_range. simpl. rewrite Ea. reflexivity.
Qed.

Lemma ageRange_cases (a : Z) :
  (13 <= a)%Z ->
  In (UserRoutes.ageRange a)
     (map Some (map fst UserRoutes.ageGroups)).
Proof.
  intros Ha. unfold UserRoutes.ageRange.
  repeat match goal with
         | |- context [(?x <=? ?y)%Z] => destruct (Z.leb_spec x y); simpl
         end;
    try lia; tauto.
Qed.

Lemma ageRange_young (a : Z) : (a < 13)%Z -> UserRoutes.ageRange a = None.
Proof.
  intros Ha. unfold UserRoutes.ageRange.
  repeat match goal with
         | |- context [(?x <=? ?y)%Z] => destruct (Z.leb_spec x y); simpl
         end;
    try lia; reflexivity.
Qed.

(** X19. GET /analytics/age answers the seven ranges in their fixed
    order, each with the number of rows whose age lies in it; the counts
    add up to the number of rows whose age is at least 13, so a row
    without an age or with an age below 13 is in no range. *)
Theorem analyticsAge_counts (db : Prisma.DB) :
  UserRoutes.analyticsAge db
  = map (fun k => (k, in_range k db))
        ["13-17"; "18-24"; "25-34"; "35-44"; "45-54"; "55-64"; "65+"]
  /\ list_sum (map snd (UserRoutes.analyticsAge db))
     = List.length
         (filter (fun u => match Prisma.age u with
                           | Some a => (13 <=? a)%Z
                           | None => false
                           end) db).
Proof.
  assert (Hout : UserRoutes.analyticsAge db
                 = map (fun k => (k, in_range k db))
                     ["13-17"; "18-24"; "25-34"; "35-44"; "45-54"; "55-64";
                      "65+"]).
  { unfold UserRoutes.analyticsAge.
    change UserRoutes.ageGroups
      with (map (fun k => (k, 0%nat))
              ["13-17"; "18-24"; "25-34"; "35-44"; "45-54"; "55-64"; "65+"]).
    rewrite (countAge_fold db (fun _ => 0%nat)). reflexivity. }
  split; [exact Hout|]. rewrite Hout. clear Hout.
  induction db as [|u rest IH]; [reflexivity|].
  cbn [map snd list_sum] in *. unfold in_range in *. cbn [filter] in *.
  destruct (Prisma.age u) as [a|] eqn:Ea; [|exact IH].
  destruct (Z.leb_spec 13 a) as [Hge|Hlt].
  - pose proof (ageRange_cases a Hge) as Hin. simpl in Hin.
    unfold list_sum in *. cbn [fold_right] in *.
    destruct Hin as [H|[H|[H|[H|[H|[H|[H|[]]]]]]]]; rewrite <- H;
      cbn [String.eqb Ascii.eqb Bool.eqb List.length]; simpl; lia.
  - rewrite (ageRange_young a Hlt). exact IH.
Qed.

Lemma count_since_le (db : Prisma.DB) (t1 t2 : Z) :
  (t1 <= t2)%Z -> (Prisma.count_since db t2 <= Prisma.count_since db t1)%nat.
Proof.
  intros Ht. unfold Prisma.count_since.
  induction db as [|u rest IH]; simpl; [lia|].
  destruct (Z.leb_spec t2 (Prisma.createdAt u)),
    (Z.leb_spec t1 (Prisma.createdAt u)); simpl; lia.
Qed.

(** X20. The four counts of GET /analytics/overview are nested: with the
    three instants in their order, the users of today are among those of
    the week, these among those of the month, these among all. *)
Theorem analyticsOverview_nested (thirtyDaysAgo sevenDaysAgo today : Z)
  (db : Prisma.DB)
  (Hmonth : (thirtyDaysAgo <= sevenDaysAgo)%Z)
  (Hweek : (sevenDaysAgo <= today)%Z) :
  let o := UserRoutes.analyticsOverview thirtyDaysAgo sevenDaysAgo today db in
  (UserRoutes.todayUsers o <= UserRoutes.weeklyUsers o)%nat
  /\ (UserRoutes.weeklyUsers o <= UserRoutes.newUsers o)%nat
  /\ (UserRoutes.newUsers o <= UserRoutes.totalUsers o)%nat
  /\ UserRoutes.totalUsers o = List.length db.
Proof.
  cbv zeta. simpl. split; [|split; [|split]].
  - apply count_since_le. exact Hweek.
  - apply count_since_le. exact Hmonth.
  - unfold Prisma.count_since. apply filter_length_le.
  - reflexivity.
Qed.

Lemma opt_eqb_eq (a b : option string) : Prisma.opt_eqb a b = true <-> a = b.
Proof.
  destruct a as [x|], b as [y|]; simpl; split; intros H;
    try discriminate; try reflexivity.
  - apply String.eqb_eq in H. congruence.
  - inversion H. apply String.eqb_refl.
Qed.

Lemma gender_keys_In (db : Prisma.DB) (g : option string) :
  In g (Prisma.gender_keys db) <-> exists u, In u db /\ Prisma.gender u = g.
Proof.
  induction db as [|u rest IH]; simpl.
  - split; [intros [] | intros [u [[] _]]].
  - destruct (existsb (Prisma.opt_eqb (Prisma.gender u))
                (Prisma.gender_keys rest)) eqn:Ex.
    + rewrite IH. split.
      * intros [v [Hv Hg]]. eauto.
      * intros [v [[<-|Hv] Hg]]; [|eauto].
        apply existsb_exists in Ex. destruct Ex as [k [Hk Heq]].
        apply opt_eqb_eq in Heq. subst. apply IH. congruence.
    + simpl. rewrite IH. split.
      * intros [<-|[v [Hv Hg]]]; eauto.
      * intros [v [[<-|Hv] Hg]]; [left; exact Hg | right; eauto].
Qed.

Lemma gender_keys_NoDup (db : Prisma.DB) : NoDup (Prisma.gender_keys db).
Proof.
  induction db as [|u rest IH]; simpl; [constructor|].
  destruct (existsb (Prisma.opt_eqb (Prisma.gender u))
              (Prisma.gender_keys rest)) eqn:Ex; [exact IH|].
  constructor; [|exact IH]. intros Hin.
  assert (Ht : existsb (Prisma.opt_eqb (Prisma.gender u))
                 (Prisma.gender_keys rest) = true).
  { apply existsb_exists. exists (Prisma.gender u). split; [exact Hin|].
    apply opt_eqb_eq. reflexivity. }
  congruence.
Qed.

(** [_count.gender] of the group of [g]. *)
Lemma groupBy_gender_counts (db : Prisma.DB) :
  map snd (UserRoutes.analyticsGender db)
  = map (fun g => match g with
                  | Some _ =>
                      List.length
                        (filter (fun u => Prisma.opt_eqb (Prisma.gender u) g) db)
                  | None => 0%nat
                  end) (Prisma.gender_keys db).
Proof.
  unfold UserRoutes.analyticsGender, Prisma.groupBy_gender.
  rewrite !map_map. reflexivity.
Qed.

Lemma list_sum_step (n : nat) (l : list nat) :
  list_sum (n :: l) = (n + list_sum l)%nat.
Proof. reflexivity. Qed.

Lemma list_sum_zero {A : Type} (f : A -> nat) (l : list A) :
  (forall a, In a l -> f a = 0%nat) -> list_sum (map f l) = 0%nat.
Proof.
  induction l as [|a l IH]; intros Hf; [reflexivity|].
  cbn [map]. rewrite list_sum_step, IH, (Hf a); [reflexivity | left; reflexivity |].
  intros b Hb. apply Hf. right. exact Hb.
Qed.

Lemma list_sum_indicator (x : string) (ks : list (option string)) :
  NoDup ks -> In (Some x) ks ->
  list_sum (map (fun g => match g with
                          | Some _ => if Prisma.opt_eqb (Some x) g
                                      then 1%nat else 0%nat
                          | None => 0%nat
                          end) ks) = 1%nat.
Proof.
  induction ks as [|k ks IH]; intros Hnd Hin; [contradiction|].
  inversion Hnd as [|a l Hnotin Hrest]; subst.
  cbn [map]. rewrite list_sum_step.
  destruct Hin as [->|Hin].
  - rewrite list_sum_zero.
    + simpl. rewrite String.eqb_refl. reflexivity.
    + intros g Hg. destruct g as [y|]; [|reflexivity].
      destruct (Prisma.opt_eqb (Some x) (Some y)) eqn:E; [|reflexivity].
      apply opt_eqb_eq in E. exfalso. apply Hnotin. rewrite E. exact Hg.
  - rewrite (IH Hrest Hin).
    destruct k as [y|]; [|reflexivity].
    destruct (Prisma.opt_eqb (Some x) (Some y)) eqn:E; [|reflexivity].
    apply opt_eqb_eq in E. exfalso. apply Hnotin. rewrite <- E. exact Hin.
Qed.

Lemma gender_counts_sum (ks : list (option string)) (db : Prisma.DB) :
  NoDup ks -> (forall u, In u db -> In (Prisma.gender u) ks) ->
  list_sum (map (fun g => match g with
                          | Some _ =>
                              List.length
                                (filter (fun u => Prisma.opt_eqb (Prisma.gender u) g)
                                   db)
                          | None => 0%nat
                          end) ks)
  = List.length (filter (fun u => is_set (Prisma.gender u)) db).
Proof.
  intros Hnd. induction db as [|u rest IH]; intros Hcover.
  - apply list_sum_zero. intros g _. destruct g; reflexivity.
  - assert (Hrest : forall v, In v rest -> In (Prisma.gender v) ks)
      by (intros v Hv; apply Hcover; right; exact Hv).
    specialize (IH Hrest).
    assert (Hsplit :
      list_sum (map (fun g => match g with
                              | Some _ =>
                                  List.length
                                    (filter (fun v => Prisma.opt_eqb (Prisma.gender v) g)
                                       (u :: rest))
                              | None => 0%nat
                              end) ks)
      = (list_sum (map (fun g => match g with
                                 | Some _ =>
                                     if Prisma.opt_eqb (Prisma.gender u) g
                                     then 1%nat else 0%nat
                                 | None => 0%nat
                                 end) ks)
         + list_sum (map (fun g => match g with
                                   | Some _ =>
                                       List.length
                                         (filter (fun v => Prisma.opt_eqb (Prisma.gender v) g)
                                            rest)
                                   | None => 0%nat
                                   end) ks))%nat).
    { clear. induction ks as [|k ks IHk]; [reflexivity|].
      cbn [map]. rewrite !list_sum_step, IHk.
      destruct k as [y|]; [|reflexivity]. cbn [filter].
      destruct (Prisma.opt_eqb (Prisma.gender u) (Some y)); simpl; lia. }
    rewrite Hsplit, IH. cbn [filter].
    destruct (Prisma.gender u) as [x|] eqn:Eg; cbn [is_set List.length].
    + rewrite (list_sum_indicator x ks Hnd); [reflexivity|].
      rewrite <- Eg. apply Hcover. left. reflexivity.
    + rewrite list_sum_zero; [reflexivity|].
      intros g _. destruct g; reflexivity.
Qed.

(** X21. GET /analytics/gender: the counts add up to the number of rows
    that have a gender; a row without one adds a "Not specified" slice
    whose count is 0, since the count is that of the non-NULL values of
    the group; and when every stored gender is one of the four valid
    values, every "Not specified" slice has count 0. *)
Theorem analyticsGender_counts (db : Prisma.DB) :
  list_sum (map snd (UserRoutes.analyticsGender db))
  = List.length (filter (fun u => is_set (Prisma.gender u)) db)
  /\ ((exists u, In u db /\ Prisma.gender u = None) ->
      In ("Not specified", 0%nat) (UserRoutes.analyticsGender db))
  /\ (Forall (fun u => gender_ok (Prisma.gender u)) db ->
      forall c, In ("Not specified", c) (UserRoutes.analyticsGender db) ->
                c = 0%nat).
Proof.
  split; [|split].
  - rewrite groupBy_gender_counts. apply gender_counts_sum.
    + apply gender_keys_NoDup.
    + intros u Hu. apply gender_keys_In. eauto.
  - intros Hnone. apply gender_keys_In in Hnone.
    unfold UserRoutes.analyticsGender, Prisma.groupBy_gender.
    rewrite map_map. apply in_map_iff. exists None. split; [reflexivity|].
    exact Hnone.
  - intros Hvalid c Hin.
    unfold UserRoutes.analyticsGender, Prisma.groupBy_gender in Hin.
    rewrite map_map in Hin. apply in_map_iff in Hin.
    destruct Hin as [g [Heq Hg]]. simpl in Heq.
    destruct g as [x|]; [|inversion Heq; reflexivity].
    exfalso. apply gender_keys_In in Hg. destruct Hg as [u [Hu Hgu]].
    rewrite Forall_forall in Hvalid. specialize (Hvalid u Hu).
    rewrite Hgu in Hvalid. simpl in Hvalid.
    destruct Hvalid as [H|[H|[H|[H|[]]]]]; subst x; simpl in Heq;
      inversion Heq.
Qed.

(* ===================================================================== *)
(** ** The email pattern *)
(* ===================================================================== *)











(* ===================================================================== *)
(** ** Which routes can break the two invariants *)
(* ===================================================================== *)

Section Culprits.

Context {R : Runtime}.




Lemma deletePicture_update (now : Z) (db : Prisma.DB) (user : option nat) :
  snd (UserRoutes.deletePicture now db user) = db
  \/ exists i u',
       Prisma.update now db i
         (Prisma.mkUpdate None None None None (Some None) None None None)
       = Ret (u', snd (UserRoutes.deletePicture now db user)).
Proof.
  unfold UserRoutes.deletePicture, try_catch.
  destruct user as [uid|]; [|left; reflexivity].
  destruct (UserRoutes.deletePicture_try now db uid) as [[r db']|] eqn:E;
    [|left; reflexivity].
  cbn [snd]. unfold UserRoutes.deletePicture_try in E.
  repeat step_exn E; inversion E; subst; clear E;
    [left; reflexivity | right; eauto].
Qed.

Lemma changePassword_update (now : Z) (db : Prisma.DB) (user : option nat)
  (req : UserRoutes.ChangePasswordRequest) :
  snd (UserRoutes.changePassword now db user req) = db
  \/ exists i h u',
       Prisma.update now db i
         (Prisma.mkUpdate None (Some h) None None None None None None)
       = Ret (u', snd (UserRoutes.changePassword now db user req)).
Proof.
  destruct (UserRoutes.changePassword now db user req) as [r db'] eqn:Hrun.
  cbn [snd].
  unfold UserRoutes.changePassword, try_catch in Hrun.
  destruct user as [uid|]; [|inversion Hrun; left; reflexivity].
  destruct (UserRoutes.changePassword_try now db uid req) as [[r0 db0]|] eqn:E;
    inversion Hrun; subst; clear Hrun; [|left; reflexivity].
  unfold UserRoutes.changePassword_try in E.
  repeat (first [ match type of E with
                  | UserRoutes.set_password _ _ _ _ _ = Ret _ => fail 2
                  end
                | step_exn E ]);
    try (inversion E; subst; left; reflexivity).
  all: right; unfold UserRoutes.set_password in E;
    repeat step_exn E; inversion E; subst; clear E;
    match goal with
    | Hu : Prisma.update _ _ _ _ = Ret ?q |- _ => destruct q; eauto
    end.
Qed.

Lemma plain_update_keeps_consistent (now : Z) (db db' : Prisma.DB) (i : nat)
  (d : Prisma.UpdateData) (u' : Prisma.User) :
  Prisma.set_age d = None -> Prisma.set_gender d = None ->
  Prisma.set_isProfileComplete d = None ->
  Prisma.update now db i d = Ret (u', db') ->
  Forall profile_consistent db -> Forall profile_consistent db'.
Proof.
  intros Ha Hg Hf Hu Hinv.
  destruct (update_inv now db db' i d u' Hu) as [v [Hfind [Hrow Hdb]]].
  rewrite Hdb. apply Forall_replace_row; [exact Hinv|].
  rewrite Forall_forall in Hinv.
  pose proof (Hinv v (proj1 (findUnique_id_sound db i v Hfind))) as Hv.
  rewrite Hrow. unfold profile_consistent in *. simpl.
  rewrite Ha, Hg, Hf. exact Hv.
Qed.

(** X23. PUT /profile is the only route that can leave the completion
    flag at odds with the stored age and gender: in every table reached
    without it, each row's flag equals "age set and gender set". *)
Theorem flag_consistent_without_profile_update
  (trace : list (Z * App.Request)) (Hno : without_profile_update trace) :
  Forall profile_consistent (App.run trace []).
Proof.
  cut (forall db, keys_unique db /\ Forall profile_consistent db ->
                  keys_unique (App.run trace db)
                  /\ Forall profile_consistent (App.run trace db)).
  { intros H. apply H. split; [repeat split; constructor | constructor]. }
  induction Hno as [|[now r] rest Hr Hrest IH]; intros db [Hk Hc];
    [split; assumption|].
  simpl. apply IH. split.
  - exact (writes_keeps_keys now db _ (handle_writes now db r) Hk).
  - destruct r as [req|profile|req|user req|user|user req]; simpl in *.
    + apply signup_preserves_consistent. exact Hc.
    + apply verify_preserves_consistent; [exact (proj1 Hk) | exact Hc].
    + apply completeProfile_preserves_consistent. exact Hc.
    + contradiction.
    + destruct (deletePicture_update now db user) as [->|[i [u' Hu]]];
        [exact Hc|].
      eapply plain_update_keeps_consistent; [| | |exact Hu|exact Hc];
        reflexivity.
    + destruct (changePassword_update now db user req) as [->|[i [h [u' Hu]]]];
        [exact Hc|].
      eapply plain_update_keeps_consistent; [| | |exact Hu|exact Hc];
        reflexivity.
Qed.


End Culprits.

(* ===================================================================== *)
(** ** The further theorems at the sample requests *)
(* ===================================================================== *)

Lemma substring_all (s : string) : substring 0 (String.length s) s = s.
Proof. induction s as [|c s IH]; simpl; congruence. Qed.

(** The sample tokens verify to the id they were signed for. *)
Lemma sample_jwt_round_trip (i : nat) :
  Sample.verify (Sample.sign i) = Some i.
Proof.
  unfold Sample.verify, Sample.sign.
  set (d := NilEmpty.string_of_uint (Nat.to_uint i)).
  change ("jwt." ++ d) with (String "j" (String "w" (String "t" (String "." d)))).
  cbn [String.prefix Ascii.eqb Bool.eqb String.length substring Nat.sub].
  simpl. rewrite Nat.sub_0_r, substring_all.
  assert (Hp : String.prefix "" d = true) by (destruct d; reflexivity).
  rewrite Hp. unfold d.
  rewrite NilEmpty.usu. simpl. rewrite DecimalNat.Unsigned.of_to. reflexivity.
Qed.


(** Alice reads GET /me with the token of her signup. *)
Lemma signup_then_me_witness :
  exists v,
    body (fst (@Auth.signup Sample.runtime 1 [] Sample.alice))
    = UserBody (Some "User created successfully") v (Some "jwt.1")
    /\ @Auth.me Sample.runtime Sample.db_alice (Some "Bearer jwt.1")
       = mkResponse 200 (UserBody None v None).
Proof.
  eexists. split; [reflexivity|].
  refine (@signup_then_me Sample.runtime 1 [] Sample.alice "Bearer jwt.1"
            _ _ "jwt.1" eq_refl eq_refl _ sample_jwt_round_trip).
  discriminate.
Defined.

(** The header "Bearer jwt.1" and the header "Bearer". *)
Lemma bearer_second_word_witness :
  Auth.bearer (Some "Bearer jwt.1") = Some "jwt.1"
  /\ Auth.bearer (Some "Bearer") = None.
Proof.
  destruct (bearer_second_word "Bearer" "jwt.1" eq_refl eq_refl) as [H1 H2].
  split; [exact H1|]. apply H2. discriminate.
Defined.


(** Alice sends an age of 200 with PUT /profile. *)
Lemma updateProfile_age_out_of_range_witness :
  status (fst (@UserRoutes.updateProfile Sample.runtime 2 Sample.db_alice
                 (Some 1%nat) Sample.update_age_200)) = 400%nat
  /\ snd (@UserRoutes.updateProfile Sample.runtime 2 Sample.db_alice
            (Some 1%nat) Sample.update_age_200) = Sample.db_alice.
Proof.
  destruct (@updateProfile_age_out_of_range Sample.runtime 2 Sample.db_alice
              1%nat Sample.update_age_200 eq_refl eq_refl) as [H1 [_ H2]].
  split; assumption.
Defined.



(** Bob, who has no secret yet, sets one. *)
Lemma changePassword_success_witness :
  exists u new,
    Prisma.findUnique_id Sample.db_bob 1 = Some u
    /\ new = "secret1"
    /\ Prisma.provider u = "google" /\ has_credential u = false.
Proof.
  destruct (@changePassword_success Sample.runtime 2 Sample.db_bob _
              (Some 1%nat)
              (UserRoutes.mkChangePassword Js.JUndefined (Js.JStr "secret1"))
              _ eq_refl eq_refl)
    as [uid [u [new [Huser [Hu [Hnew [_ [_ Hwhy]]]]]]]].
  inversion Huser; subst uid. inversion Hnew; subst new.
  exists u, "secret1". split; [exact Hu|]. split; [reflexivity|].
  destruct Hwhy as [Hg|[current [h [Hc _]]]]; [exact Hg | discriminate Hc].
Defined.

(** Bob deletes his picture, twice. *)
Lemma deletePicture_twice_witness :
  UserRoutes.deletePicture 3
    (snd (UserRoutes.deletePicture 2 Sample.db_bob (Some 1%nat))) (Some 1%nat)
  = (reject 400 "No profile picture to delete",
     snd (UserRoutes.deletePicture 2 Sample.db_bob (Some 1%nat))).
Proof.
  exact (proj2 (deletePicture_twice 2 3 Sample.db_bob _ 1%nat _
                  eq_refl eq_refl)).
Defined.

(** Bob's first Google login leads to the complete-profile page. *)
Lemma googleCallback_after_verify_witness :
  exists u,
    @Auth.googleCallback Sample.runtime Sample.db_bob 1
    = Auth.RedirectWith "complete-profile" "jwt.1"
        (Prisma.select Auth.signup_select u).
Proof.
  eexists.
  exact (@googleCallback_after_verify Sample.runtime [] 1 Sample.google_bob
           _ _ eq_refl).
Defined.

(** Alice, signed up locally, logs in with Google under the same email. *)
Lemma verify_existing_account_witness :
  exists u u',
    Sample.db_alice = [u]
    /\ snd (Passport.verify 2 Sample.db_alice Sample.google_alice_exact) = [u']
    /\ Prisma.password u' = Prisma.password u
    /\ Prisma.provider u' = "google"
    /\ Prisma.isProfileComplete u' = true.
Proof.
  assert (He : "alice@example.com" <> "") by discriminate.
  destruct (verify_existing_account 2 Sample.db_alice _
              Sample.google_alice_exact "alice@example.com" [] _ _
              eq_refl He eq_refl eq_refl eq_refl)
    as [Hdb [_ [_ [Hpw [_ [_ [_ [Hprov [_ [_ [_ Hflag]]]]]]]]]]].
  eexists. eexists. split; [reflexivity|].
  split; [reflexivity|]. split; [exact Hpw|]. split; [exact Hprov | exact Hflag].
Defined.

(** Alice's table against the instants 0, 1 and 5. *)
Lemma analyticsOverview_nested_witness :
  (Prisma.count_since Sample.db_alice 5 <= Prisma.count_since Sample.db_alice 1)%nat
  /\ (Prisma.count_since Sample.db_alice 1 <= Prisma.count_since Sample.db_alice 0)%nat.
Proof.
  assert (H01 : (0 <= 1)%Z) by lia.
  assert (H15 : (1 <= 5)%Z) by lia.
  destruct (analyticsOverview_nested 0 1 5 Sample.db_alice H01 H15)
    as [H1 [H2 _]].
  split; [exact H1 | exact H2].
Defined.

(** After Alice's signup alone, flag and emails are in order. *)
Lemma flag_consistent_without_profile_update_witness :
  Forall profile_consistent Sample.db_alice.
Proof.
  refine (@flag_consistent_without_profile_update Sample.runtime
            Sample.trace_alice _).
  repeat constructor.
Defined.



(** The row of Alice's signup has a consistent flag. *)
Lemma signup_created_consistent_witness :
  exists u, Sample.db_alice = [u] /\ profile_consistent u.
Proof.
  exact (@signup_created_consistent Sample.runtime 1 [] Sample.alice eq_refl).
Defined.

(* ===================================================================== *)
(** ** What PUT /profile writes, and when signup succeeds *)
(* ===================================================================== *)

Section ProfileUpdate.

Context {R : Runtime}.

(** X27. A PUT /profile that answers 200 has rewritten the caller's row:
    the name is the request's; an age or a gender that was sent is
    stored, validated, and one that was not sent keeps its old value;
    the completion flag is "age sent and gender sent", whatever the row
    holds; email, secret hash, provider and Google id are as before, and
    so is the picture when no file was sent. *)
Theorem updateProfile_success (now : Z) (db db' : Prisma.DB) (uid : nat)
  (req : UserRoutes.UpdateProfileRequest) (r : Response)
  (Hrun : UserRoutes.updateProfile now db (Some uid) req = (r, db'))
  (Hok : status r = 200%nat) :
  exists u u',
    Prisma.findUnique_id db uid = Some u
    /\ Prisma.findUnique_id db' uid = Some u'
    /\ db' = Prisma.replace_row uid u' db
    /\ UserRoutes.up_name req = Js.JStr (Prisma.name u')
    /\ Prisma.isProfileComplete u'
       = Js.truthy (UserRoutes.up_age req) && Js.truthy (UserRoutes.up_gender req)
    /\ (if Js.truthy (UserRoutes.up_age req)
        then exists z, Prisma.age u' = Some z /\ (13 <= z <= 120)%Z
        else Prisma.age u' = Prisma.age u)
    /\ (if Js.truthy (UserRoutes.up_gender req)
        then exists g, Prisma.gender u' = Some g /\ In g valid_genders
        else Prisma.gender u' = Prisma.gender u)
    /\ Prisma.email u' = Prisma.email u
    /\ Prisma.password u' = Prisma.password u
    /\ Prisma.provider u' = Prisma.provider u
    /\ Prisma.googleId u' = Prisma.googleId u
    /\ (UserRoutes.up_file req = None ->
        Prisma.profilePicture u' = Prisma.profilePicture u).
Proof.
  unfold UserRoutes.updateProfile, try_catch in Hrun.
  destruct (UserRoutes.updateProfile_try now db uid req) as [[r0 db0]|] eqn:E;
    inversion Hrun; subst; clear Hrun; [|discriminate Hok].
  unfold UserRoutes.updateProfile_try in E.
  repeat step_exn E; try (inversion E; subst; discriminate Hok).
  inversion E; subst; clear E.
  match goal with
  | Hu : Prisma.update _ _ _ _ = Ret _ |- _ =>
      apply update_inv in Hu; destruct Hu as [w [Hw [Hrow Hdb]]]
  end.
  exists w. eexists. split; [exact Hw|]. split.
  { rewrite Hdb, Hrow. apply (findUnique_id_replace db uid w); [exact Hw|].
    simpl. exact (proj2 (findUnique_id_sound db uid w Hw)). }
  split; [rewrite Hdb, Hrow; reflexivity|]. simpl.
  split.
  { match goal with
    | Hn : Prisma.String_arg (UserRoutes.up_name req) = Ret _ |- _ =>
        destruct (UserRoutes.up_name req); try discriminate Hn;
        simpl in Hn; inversion Hn; reflexivity
    end. }
  split; [reflexivity|].
  split.
  { match goal with
    | Hc : Js.truthy (UserRoutes.up_age req) && _ = false,
      Ha : (if Js.truthy (UserRoutes.up_age req) then _ else _) = Ret ?o |- _ =>
        pose proof (age_arg_ok _ _ Hc Ha) as Hage;
        destruct (Js.truthy (UserRoutes.up_age req));
        [destruct (Prisma.Int_arg (Number (UserRoutes.up_age req)));
         [|discriminate Ha]|];
        simpl in Ha; inversion Ha; subst o
    end; [eexists; split; [reflexivity | exact Hage] | reflexivity]. }
  split.
  { match goal with
    | Hc : and_then (Js.truthy (UserRoutes.up_gender req)) _ = Ret false,
      Hg : (if Js.truthy (UserRoutes.up_gender req) then _ else _) = Ret ?o |- _ =>
        pose proof (gender_arg_ok _ _ Hc Hg) as Hgen;
        destruct (Js.truthy (UserRoutes.up_gender req));
        [destruct (toLowerCase_of (UserRoutes.up_gender req));
         [|discriminate Hg]|];
        simpl in Hg; inversion Hg; subst o
    end; [eexists; split; [reflexivity | exact Hgen] | reflexivity]. }
  repeat (split; [reflexivity|]).
  intros Hfile.
  match goal with
  | Hp : match UserRoutes.up_file req with _ => _ end = Ret _ |- _ =>
      rewrite Hfile, Hw in Hp; simpl in Hp; inversion Hp; reflexivity
  end.
Qed.

End ProfileUpdate.

Section SignupSuccess.

Context {R : Runtime}.



End SignupSuccess.

(** Alice renames herself: age and gender stay, the flag goes. *)
Lemma updateProfile_success_witness :
  exists u u',
    Prisma.findUnique_id Sample.db_alice 1 = Some u
    /\ Prisma.findUnique_id
         (snd (@UserRoutes.updateProfile Sample.runtime 2 Sample.db_alice
                 (Some 1%nat) Sample.rename_alice)) 1 = Some u'
    /\ Prisma.isProfileComplete u' = false
    /\ Prisma.age u' = Prisma.age u
    /\ Prisma.gender u' = Prisma.gender u.
Proof.
  destruct (@updateProfile_success Sample.runtime 2 Sample.db_alice _ 1%nat
              Sample.rename_alice _ eq_refl eq_refl)
    as [u [u' [Hu [Hu' [_ [_ [Hflag [Hage [Hgender _]]]]]]]]].
  exists u, u'. repeat split; assumption.
Defined.

